(** * nmos-cpp-node: the example node implementation

    A shallow embedding of [Development/nmos-cpp-node/node_implementation.cpp]:
    the two Connection API activation callbacks (the "auto" resolver and the
    transport file setter), the start-up sequence of the node implementation
    thread, and the value that the temperature task writes.

    The callbacks update their arguments in place, so they are modelled in a
    state-and-exception monad whose state is the object updated; a C++
    exception ends the computation with the state reached so far. *)

From Stdlib Require Import ZArith Lia String List Bool.
From stdpp Require Import gmap strings list.

Open Scope string_scope.
Set Warnings "-register-all".

(** ** Exceptions and in-place computations *)

(** The C++ exceptions that the modelled code can raise: [web::json::json_exception]
    from the JSON accessors and the [std::logic_error] of the transport file setter. *)
Inductive exception : Type :=
| json_exception
| logic_error (what : string).

Inductive outcome (A : Type) : Type :=
| Val (a : A)
| Exn (e : exception).
Arguments Val {A} a.
Arguments Exn {A} e.

(** A computation that works on a state [S] in place. *)
Definition M (S A : Type) : Type := S -> outcome A * S.

Definition ret {S A : Type} (a : A) : M S A := fun s => (Val a, s).

Definition throw {S A : Type} (e : exception) : M S A := fun s => (Exn e, s).

Definition bind {S A B : Type} (c : M S A) (k : A -> M S B) : M S B :=
  fun s =>
    match c s with
    | (Val a, s') => k a s'
    | (Exn e, s') => (Exn e, s')
    end.

Notation "'let*' x ':=' c 'in' k" := (bind c (fun x => k))
  (at level 10, x name, c at level 100, k at level 200, only parsing).
Notation "'do*' c 'in' k" := (bind c (fun _ => k))
  (at level 10, c at level 100, k at level 200, only parsing).

(** Computations on local values, where an exception discards the value. *)
Definition obind {A B : Type} (o : outcome A) (k : A -> outcome B) : outcome B :=
  match o with
  | Val a => k a
  | Exn e => Exn e
  end.

Notation "'let+' x ':=' o 'in' k" := (obind o (fun x => k))
  (at level 10, x name, o at level 100, k at level 200, only parsing).

(** The final state of an in-place computation, or its exception. *)
Definition exec {S : Type} (c : M S unit) (s : S) : outcome S :=
  match c s with
  | (Val _, s') => Val s'
  | (Exn e, _) => Exn e
  end.

(** ** [web::json::value] *)

Inductive value : Type :=
| JNull
| JBool (b : bool)
| JNumber (n : Z)
| JString (s : string)
| JArray (elements : list value)
| JObject (fields : list (string * value)).

(** [value::size()]: the number of elements or fields, 0 for anything else. *)
Definition size (v : value) : nat :=
  match v with
  | JArray elements => length elements
  | JObject fields => length fields
  | _ => 0
  end.

(** The elements that [value::operator[](size_t index)] works on: a null
    becomes an array, an array shorter than [index + 1] is extended with
    nulls, any other value raises. *)
Definition elements_for_index (index : nat) (v : value) : outcome (list value) :=
  match v with
  | JNull => Val (replicate (S index) JNull)
  | JArray elements => Val (elements ++ replicate (S index - length elements) JNull)%list
  | _ => Exn json_exception
  end.

(** [f(v[index])] for a function [f] that takes its argument by reference. *)
Definition at_index {A : Type} (index : nat) (f : M value A) : M value A :=
  fun v =>
    match elements_for_index index v with
    | Val elements =>
        let '(o, e) := f (nth index elements JNull) in
        (o, JArray (<[index := e]> elements))
    | Exn e => (Exn e, v)
    end.

Fixpoint find_field (key : string) (fields : list (string * value)) : option value :=
  match fields with
  | [] => None
  | (k, v) :: rest => if String.eqb k key then Some v else find_field key rest
  end.

Fixpoint set_field (key : string) (x : value) (fields : list (string * value))
  : list (string * value) :=
  match fields with
  | [] => [(key, x)]
  | (k, v) :: rest =>
      if String.eqb k key then (k, x) :: rest else (k, v) :: set_field key x rest
  end.

(** The fields that [value::operator[](const string_t& key)] works on: a null
    becomes an object, a missing field is added as null, any value that is
    not an object raises.  (Where cpprestsdk puts a new field among the
    others depends on its keep-order flag; here it goes last.) *)
Definition fields_for_key (key : string) (v : value) : outcome (list (string * value)) :=
  let ensure fields :=
    match find_field key fields with
    | Some _ => fields
    | None => set_field key JNull fields
    end in
  match v with
  | JNull => Val (ensure [])
  | JObject fields => Val (ensure fields)
  | _ => Exn json_exception
  end.

(** [v[key]], after [fields_for_key]. *)
Definition field_or_null (key : string) (fields : list (string * value)) : value :=
  match find_field key fields with
  | Some x => x
  | None => JNull
  end.

(** [v[key] = f(v[key])] on a local value. *)
Definition update_key (key : string) (f : value -> outcome value) (v : value) : outcome value :=
  let+ fields := fields_for_key key v in
  let+ x := f (field_or_null key fields) in
  Val (JObject (set_field key x fields)).

(** [value::at(key) const]: raises when the value is not an object or has no
    such field. *)
Definition at_key (key : string) (v : value) : outcome value :=
  match v with
  | JObject fields =>
      match find_field key fields with
      | Some x => Val x
      | None => Exn json_exception
      end
  | _ => Exn json_exception
  end.

(** The "auto" sentinel of a transport parameter. *)
Definition is_auto (v : value) : bool :=
  match v with
  | JString s => String.eqb s "auto"
  | _ => false
  end.



(** ** Resources *)

Module types.

Inductive type : Type :=
| node | device | source | flow | sender | receiver | subscription | grain.

Definition eqb (a b : type) : bool :=
  match a, b with
  | node, node | device, device | source, source | flow, flow
  | sender, sender | receiver, receiver | subscription, subscription
  | grain, grain => true
  | _, _ => false
  end.

End types.

Record resource : Type := make_resource {
  id : string;
  type : types.type;
  data : value
}.

Definition with_data (r : resource) (d : value) : resource :=
  {| id := id r; type := type r; data := d |}.

(** One namespace of the model: [nmos::resources], keyed by id. *)
Abbreviation resources := (gmap string resource).

(** Modelled from the spec: [nmos::find_resource] (nmos/resources.h is not
    among the sources).  "find(namespace, id, type) -> optional<Resource&>: by
    id; fails (returns empty) if absent". *)
Definition find_resource (rs : resources) (id_type : string * types.type) : option resource :=
  match rs !! (fst id_type) with
  | Some r => if types.eqb (type r) (snd id_type) then Some r else None
  | None => None
  end.

(** Modelled from the spec: [nmos::insert_resource] (nmos/resources.h is not
    among the sources).  "Fails (returns false, does not mutate) if (id, type)
    already exists in that namespace. On success, the resource becomes visible
    to all subsequent lookups"; a namespace maps an id to one resource, so a
    second resource with the same id is the failure. *)
Definition insert_resource (rs : resources) (r : resource) : resources * bool :=
  match rs !! (id r) with
  | Some _ => (rs, false)
  | None => (<[id r := r]> rs, true)
  end.

(** ** The nmos library

    The example node is written against the nmos-cpp library, whose sources
    are not part of this development.  What the code needs of it is collected
    here: identifiers and settings, the JSON field names, the resource
    constructors, and the SDP functions used by the transport file setter. *)

Record events_number : Type := make_events_number {
  number : Z;
  scale : Z
}.

Class nmos_library : Type := {
  (* nmos/settings.h, nmos/id.h *)
  seed_id : value -> string;
  events_port : value -> Z;
  make_repeatable_id : string -> string -> string;
  (* nmos/json_fields.h, nmos/group_hint.h *)
  endpoint_active : string;
  endpoint_transportfile : string;
  transport_params : string;
  source_ip : string;
  destination_ip : string;
  interface_ip : string;
  connection_uri : string;
  connection_authorization : string;
  group_hint : string;
  make_group_hint : string * string -> value;
  (* cpprest/json_utils.h *)
  push_back : value -> value -> outcome value;
  (* nmos/transport.h, nmos/media_type.h, nmos/events_resources.h *)
  transports_rtp_mcast : string;
  transports_websocket : string;
  media_types_application_json : string;
  event_types_number : string;
  event_types_wildcard : string;
  event_types_measurement : string -> string -> string -> string;
  (* nmos/node_resources.h *)
  make_node : string -> value -> resource;
  make_device : string -> string -> list string -> list string -> value -> resource;
  make_video_source : string -> string -> Z * Z -> value -> resource;
  make_raw_video_flow : string -> string -> string -> value -> resource;
  make_sender : string -> string -> string -> list string -> value -> resource;
  make_sender_with_transport :
    string -> string -> string -> string -> string -> list string -> value -> resource;
  make_video_receiver : string -> string -> string -> list string -> value -> resource;
  make_data_source : string -> string -> Z * Z -> string -> value -> resource;
  make_data_flow : string -> string -> string -> string -> value -> resource;
  make_data_receiver :
    string -> string -> string -> list string -> string -> list string -> value -> resource;
  (* nmos/connection_resources.h, nmos/events_resources.h *)
  make_connection_rtp_sender : string -> bool -> resource;
  make_connection_rtp_receiver : string -> bool -> resource;
  make_connection_rtp_sender_transportfile : string -> value;
  make_connection_events_websocket_sender : string -> string -> string -> value -> resource;
  make_connection_events_websocket_receiver : string -> value -> resource;
  make_events_ws_api_connection_uri : string -> value -> string;
  make_events_number_type :
    events_number -> events_number -> events_number -> string -> value;
  make_events_number_state : string -> events_number -> value;
  make_events_source : string -> value -> value -> resource;
  (* nmos/sdp_utils.h, sdp/sdp.h *)
  sdp_parameters : Type;
  make_sdp_parameters : value -> value -> value -> list string -> outcome sdp_parameters;
  make_session_description : sdp_parameters -> value -> outcome value;
  sdp_make_session_description : value -> outcome string;
  s2us : string -> string;
  (* the static configuration of [resolve_rtp_auto], see below: the value
     that stands for "auto", by resource type, leg and parameter name *)
  rtp_auto_value : types.type -> nat -> string -> option value
}.

(** The temperature that the background task writes at TAI second [seconds]
    (line 185): [events_number(175.0 + std::abs(seconds % 100 - 50), 10)].
    The sum is a whole number far below 2^53, so the double holds it exactly
    and it is kept as an integer here; [%] is C++ remainder ([Z.rem]). *)
Definition temperature_value (seconds : Z) : events_number :=
  {| number := 175 + Z.abs (Z.rem seconds 100 - 50); scale := 10 |}.

Section node_implementation.

Context `{nmos : nmos_library}.

(** ** Resolving "auto" *)

(** Modelled from the spec: [nmos::details::resolve_auto] (nmos/connection_api.h
    is not among the sources).  A parameter "still marked auto" gets the
    concrete value; "resolving an already-concrete parameter is a no-op". *)
Definition resolve_entry (key : string) (auto_fun : unit -> value) (kv : string * value)
  : string * value :=
  if String.eqb (fst kv) key && is_auto (snd kv) then (fst kv, auto_fun tt) else kv.

(** Modelled from the spec: [nmos::details::resolve_auto] on the parameters of
    one leg; a leg that is not an object has no parameter marked "auto". *)
Definition resolved_leg (key : string) (auto_fun : unit -> value) (params : value) : value :=
  match params with
  | JObject fields => JObject (map (resolve_entry key auto_fun) fields)
  | _ => params
  end.

(** Modelled from the spec: [nmos::details::resolve_auto(params, key, auto_fun)],
    which works on [params] in place and does not raise. *)
Definition details_resolve_auto (key : string) (auto_fun : unit -> value) : M value unit :=
  fun params => (Val tt, resolved_leg key auto_fun params).

(** Modelled from the spec: [nmos::resolve_rtp_auto] (nmos/connection_api.cpp
    is not among the sources).  "For each parameter still marked auto, the
    resolver determines a concrete value using only (a) the resource's
    identity/role and (b) static configuration"; the static configuration is
    [rtp_auto_value], and a parameter it does not know is left to the caller. *)
Definition resolve_rtp_entry (t : types.type) (leg : nat) (kv : string * value)
  : string * value :=
  if is_auto (snd kv)
  then match rtp_auto_value t leg (fst kv) with
       | Some x => (fst kv, x)
       | None => kv
       end
  else kv.

(** Modelled from the spec: [nmos::resolve_rtp_auto] on the parameters of one
    leg. *)
Definition resolve_rtp_leg (t : types.type) (leg : nat) (params : value) : value :=
  match params with
  | JObject fields => JObject (map (resolve_rtp_entry t leg) fields)
  | _ => params
  end.

(** Modelled from the spec: [nmos::resolve_rtp_auto(type, transport_params)],
    leg by leg, in place; it does not raise. *)
Definition resolve_rtp_auto (t : types.type) : M value unit :=
  fun params =>
    (Val tt,
     match params with
     | JArray legs => JArray (imap (resolve_rtp_leg t) legs)
     | _ => params
     end).

(** Lines 227-271.  The callback gets the transport parameters by reference:
    they are the state. *)
Definition make_node_implementation_auto_resolver (settings : value)
  : resource -> resource -> M value unit :=
  let seed := seed_id settings in
  let device_id := make_repeatable_id seed "/x-nmos/node/device/0" in
  let sender_id := make_repeatable_id seed "/x-nmos/node/sender/0" in
  let receiver_id := make_repeatable_id seed "/x-nmos/node/receiver/0" in
  let temperature_ws_sender_id := make_repeatable_id seed "/x-nmos/node/sender/1" in
  let temperature_ws_sender_uri := make_events_ws_api_connection_uri device_id settings in
  let temperature_ws_receiver_id := make_repeatable_id seed "/x-nmos/node/receiver/1" in
  fun resource connection_resource =>
    let id_type := (id connection_resource, type connection_resource) in
    if String.eqb sender_id (fst id_type) then
      do* resolve_rtp_auto (snd id_type) in
      do* at_index 0 (details_resolve_auto source_ip (fun _ => JString "192.168.255.0")) in
      do* at_index 1 (details_resolve_auto source_ip (fun _ => JString "192.168.255.1")) in
      do* at_index 0 (details_resolve_auto destination_ip (fun _ => JString "239.255.255.0")) in
      at_index 1 (details_resolve_auto destination_ip (fun _ => JString "239.255.255.1"))
    else if String.eqb receiver_id (fst id_type) then
      do* resolve_rtp_auto (snd id_type) in
      do* at_index 0 (details_resolve_auto interface_ip (fun _ => JString "192.168.255.2")) in
      at_index 1 (details_resolve_auto interface_ip (fun _ => JString "192.168.255.3"))
    else if String.eqb temperature_ws_sender_id (fst id_type) then
      do* at_index 0 (details_resolve_auto connection_uri
                        (fun _ => JString temperature_ws_sender_uri)) in
      at_index 0 (details_resolve_auto connection_authorization (fun _ => JBool false))
    else if String.eqb temperature_ws_receiver_id (fst id_type) then
      at_index 0 (details_resolve_auto connection_authorization (fun _ => JBool false))
    else
      ret tt.

(** ** The transport file of the example sender *)

(** The transport parameters that the setter reads (line 297):
    [nmos::fields::transport_params(nmos::fields::endpoint_active(data))]. *)
Definition active_transport_params (connection_sender_data : value) : outcome value :=
  let+ active := at_key endpoint_active connection_sender_data in
  at_key transport_params active.

(** Lines 296-300: the transport file made from the data of the source, the
    flow and the sender, and the data of the connection sender. *)
Definition transport_description (source flow sender connection_sender : value)
  : outcome value :=
  let+ sdp_params := make_sdp_parameters source flow sender ["PRIMARY"; "SECONDARY"] in
  let+ params := active_transport_params connection_sender in
  let+ session_description := make_session_description sdp_params params in
  let+ sdp := sdp_make_session_description session_description in
  Val (make_connection_rtp_sender_transportfile (s2us sdp)).

(** Lines 274-303.  The callback reads [node_resources] through the reference
    it captured and writes [endpoint_transportfile] through the reference it
    is given: the state is the pair of them. *)
Definition make_node_implementation_transportfile_setter (settings : value)
  : resource -> resource -> M (resources * value) unit :=
  let seed := seed_id settings in
  let source_id := make_repeatable_id seed "/x-nmos/node/source/0" in
  let flow_id := make_repeatable_id seed "/x-nmos/node/flow/0" in
  let sender_id := make_repeatable_id seed "/x-nmos/node/sender/0" in
  fun sender connection_sender state =>
    let node_resources := fst state in
    if String.eqb sender_id (id connection_sender) then
      let source := find_resource node_resources (source_id, types.source) in
      let flow := find_resource node_resources (flow_id, types.flow) in
      match source, flow with
      | Some source, Some flow =>
          match transport_description (data source) (data flow) (data sender)
                  (data connection_sender) with
          | Val file => (Val tt, (node_resources, file))
          | Exn e => (Exn e, state)
          end
      | _, _ => throw (logic_error "matching IS-04 source or flow not found") state
      end
    else
      ret tt state.

(** ** The model and the node implementation thread *)

(** [nmos::node_model]: the settings, the three namespaces, the shutdown flag,
    and the number of times its condition has been signalled ([notify()]). *)
Record node_model : Type := make_node_model {
  settings : value;
  node_resources : resources;
  connection_resources : resources;
  events_resources : resources;
  shutdown : bool;
  notifications : nat
}.

(** The namespace that a call of [insert_resource_after] is given by reference. *)
Inductive namespace : Type := in_node_resources | in_connection_resources | in_events_resources.

Definition get_resources (ns : namespace) (m : node_model) : resources :=
  match ns with
  | in_node_resources => node_resources m
  | in_connection_resources => connection_resources m
  | in_events_resources => events_resources m
  end.

Definition set_resources (ns : namespace) (rs : resources) (m : node_model) : node_model :=
  match ns with
  | in_node_resources =>
      {| settings := settings m; node_resources := rs;
         connection_resources := connection_resources m;
         events_resources := events_resources m;
         shutdown := shutdown m; notifications := notifications m |}
  | in_connection_resources =>
      {| settings := settings m; node_resources := node_resources m;
         connection_resources := rs;
         events_resources := events_resources m;
         shutdown := shutdown m; notifications := notifications m |}
  | in_events_resources =>
      {| settings := settings m; node_resources := node_resources m;
         connection_resources := connection_resources m;
         events_resources := rs;
         shutdown := shutdown m; notifications := notifications m |}
  end.

Definition set_shutdown (b : bool) (m : node_model) : node_model :=
  {| settings := settings m; node_resources := node_resources m;
     connection_resources := connection_resources m;
     events_resources := events_resources m;
     shutdown := b; notifications := notifications m |}.

(** [model.notify()] *)
Definition notify (m : node_model) : node_model :=
  {| settings := settings m; node_resources := node_resources m;
     connection_resources := connection_resources m;
     events_resources := events_resources m;
     shutdown := shutdown m; notifications := S (notifications m) |}.

(** How a call of [insert_resource_after] went. *)
Inductive verdict : Type := inserted | rejected | shutdown_observed.

Record attempt : Type := make_attempt {
  target : namespace;
  attempted : resource;
  result : verdict
}.

(** What the thread runs in.  It holds the model's write lock except while it
    waits, so the other threads show only there: [requests] says, for each
    wait to come, whether shutdown is requested during it (none once the
    list is used up).  [history] is a specification variable: the calls of
    [insert_resource_after] so far, oldest first. *)
Record world : Type := make_world {
  model : node_model;
  requests : list bool;
  history : list attempt
}.

Definition with_model (w : world) (m : node_model) : world :=
  {| model := m; requests := requests w; history := history w |}.

Definition record_attempt (a : attempt) (w : world) : world :=
  {| model := model w; requests := requests w; history := (history w ++ [a])%list |}.

(** Modelled from the spec: [nmos::details::wait_for] on the shutdown
    condition (nmos/mutex.h is not among the sources).  The wait "releases the
    lock while blocked and reacquires it on wake", is "bounded by a timeout or
    by shutdown", and the flag, "once set, is never cleared"; the result is the
    flag at wake-up. *)
Definition wait_for_shutdown (milliseconds : nat) : M world bool :=
  fun w =>
    let requested := match requests w with [] => false | b :: _ => b end in
    let m := set_shutdown (shutdown (model w) || requested) (model w) in
    (Val (shutdown m),
     {| model := m; requests := tail (requests w); history := history w |}).

(** Lines 52-68.  The log lines are left out; each call is added to the
    history with what became of it. *)
Definition insert_resource_after (milliseconds : nat) (ns : namespace) (r : resource)
  : M world bool :=
  let* stop := wait_for_shutdown milliseconds in
  if stop then
    fun w => (Val false, record_attempt (make_attempt ns r shutdown_observed) w)
  else
    fun w =>
      let '(rs, success) := insert_resource (get_resources ns (model w)) r in
      (Val success,
       record_attempt (make_attempt ns r (if success then inserted else rejected))
         (with_model w (notify (set_resources ns rs (model w))))).

(** [model.settings] *)
Definition model_settings : M world value :=
  fun w => (Val (settings (model w)), w).

(** [if (!c) return; k] *)
Definition or_return (c : M world bool) (k : M world unit) : M world unit :=
  let* ok := c in
  if negb ok then ret tt else k.

Notation "'unless*' c 'return_in' k" := (or_return c k)
  (at level 10, c at level 100, k at level 200, only parsing).

(** A computation on the thread's local variables. *)
Definition local {A : Type} (o : outcome A) : M world A :=
  fun w => (o, w).

(** [resolve_auto(r, c, c.data[endpoint_active][transport_params])] *)
Definition call_resolve_auto (resolve_auto : resource -> resource -> M value unit)
    (r c : resource) : outcome resource :=
  let+ d := update_key endpoint_active
              (update_key transport_params (exec (resolve_auto r c))) (data c) in
  Val (with_data c d).

(** [set_transportfile(r, c, c.data[endpoint_transportfile])], on the
    [node_resources] of the model. *)
Definition call_set_transportfile
    (set_transportfile : resource -> resource -> M (resources * value) unit)
    (r c : resource) : M world resource :=
  fun w =>
    match fields_for_key endpoint_transportfile (data c) with
    | Exn e => (Exn e, w)
    | Val fields =>
        let '(o, (rs, file)) :=
          set_transportfile r (with_data c (JObject fields))
            (node_resources (model w), field_or_null endpoint_transportfile fields) in
        let w' := with_model w (set_resources in_node_resources rs (model w)) in
        match o with
        | Val _ => (Val (with_data c (JObject (set_field endpoint_transportfile file fields))), w')
        | Exn e => (Exn e, w')
        end
    end.

(** [web::json::push_back(r.data["tags"][group_hint], make_group_hint(hint))] *)
Definition add_group_hint (hint : string * string) (r : resource) : outcome resource :=
  let+ d := update_key "tags"
              (update_key group_hint (fun v => push_back v (make_group_hint hint))) (data r) in
  Val (with_data r d).

Definition temperature_Celsius : string :=
  event_types_measurement event_types_number "temperature" "C".

Definition temperature_wildcard : string :=
  event_types_measurement event_types_number "temperature" event_types_wildcard.

(** Lines 25-168: the thread up to the last insertion.  What follows in the
    source, the background task that updates the temperature and the wait for
    shutdown, is not part of this function. *)
Definition node_implementation_thread : M world unit :=
  let* settings := model_settings in
  let seed := seed_id settings in
  let node_id := make_repeatable_id seed "/x-nmos/node/self" in
  let device_id := make_repeatable_id seed "/x-nmos/node/device/0" in
  let source_id := make_repeatable_id seed "/x-nmos/node/source/0" in
  let flow_id := make_repeatable_id seed "/x-nmos/node/flow/0" in
  let sender_id := make_repeatable_id seed "/x-nmos/node/sender/0" in
  let receiver_id := make_repeatable_id seed "/x-nmos/node/receiver/0" in
  let temperature_source_id := make_repeatable_id seed "/x-nmos/node/source/1" in
  let temperature_flow_id := make_repeatable_id seed "/x-nmos/node/flow/1" in
  let temperature_ws_sender_id := make_repeatable_id seed "/x-nmos/node/sender/1" in
  let temperature_ws_receiver_id := make_repeatable_id seed "/x-nmos/node/receiver/1" in
  let delay_millis := 10 in
  let resolve_auto := make_node_implementation_auto_resolver settings in
  let set_transportfile := make_node_implementation_transportfile_setter settings in
  ((* example node *)
   let node := make_node node_id settings in
   let* node :=
     local (let+ d := update_key "interfaces"
                        (fun _ => Val (JArray [JObject [("chassis_id", JNull);
                                                        ("port_id", JString "ff-ff-ff-ff-ff-ff");
                                                        ("name", JString "example")]]))
                        (data node) in
            Val (with_data node d)) in
   unless* insert_resource_after delay_millis in_node_resources node return_in
   (* example device *)
   let senders := if (0 <=? events_port settings)%Z
                  then [sender_id; temperature_ws_sender_id] else [sender_id] in
   let receivers := [receiver_id] in
   unless* insert_resource_after delay_millis in_node_resources
             (make_device device_id node_id senders receivers settings) return_in
   (* example source, flow and sender *)
   let source := make_video_source source_id device_id (25, 1)%Z settings in
   let flow := make_raw_video_flow flow_id source_id device_id settings in
   unless* insert_resource_after delay_millis in_node_resources source return_in
   unless* insert_resource_after delay_millis in_node_resources flow return_in
   let sender := make_sender sender_id flow_id device_id ["example"; "example"] settings in
   let* sender := local (add_group_hint ("example", "sender 0") sender) in
   let connection_sender := make_connection_rtp_sender sender_id true in
   let* connection_sender := local (call_resolve_auto resolve_auto sender connection_sender) in
   let* connection_sender := call_set_transportfile set_transportfile sender connection_sender in
   unless* insert_resource_after delay_millis in_node_resources sender return_in
   unless* insert_resource_after delay_millis in_connection_resources connection_sender return_in
   (* example receiver *)
   let receiver := make_video_receiver receiver_id device_id transports_rtp_mcast
                     ["example"; "example"] settings in
   let* receiver := local (add_group_hint ("example", "receiver 0") receiver) in
   let connection_receiver := make_connection_rtp_receiver receiver_id true in
   let* connection_receiver :=
     local (call_resolve_auto resolve_auto receiver connection_receiver) in
   unless* insert_resource_after delay_millis in_node_resources receiver return_in
   unless* insert_resource_after delay_millis in_connection_resources connection_receiver return_in
   (* example temperature event source, sender, flow *)
   let temperature_receiver_block : M world unit :=
     let temperature_receiver :=
       make_data_receiver temperature_ws_receiver_id device_id transports_websocket
         ["example"] media_types_application_json [temperature_wildcard] settings in
     let* temperature_receiver :=
       local (add_group_hint ("example", "receiver 1") temperature_receiver) in
     let connection_temperature_receiver :=
       make_connection_events_websocket_receiver temperature_ws_receiver_id settings in
     let* connection_temperature_receiver :=
       local (call_resolve_auto resolve_auto temperature_receiver
                connection_temperature_receiver) in
     unless* insert_resource_after delay_millis in_node_resources
               temperature_receiver return_in
     unless* insert_resource_after delay_millis in_connection_resources
               connection_temperature_receiver return_in
     ret tt in
   if (0 <=? events_port settings)%Z then
     let temperature_source :=
       make_data_source temperature_source_id device_id (0, 1)%Z temperature_Celsius settings in
     let events_temperature_type :=
       make_events_number_type (make_events_number (-200) 10) (make_events_number 1000 10)
         (make_events_number 1 10) "C" in
     let events_temperature_state :=
       make_events_number_state temperature_source_id (make_events_number 201 10) in
     let events_temperature_source :=
       make_events_source temperature_source_id events_temperature_state
         events_temperature_type in
     let temperature_flow :=
       make_data_flow temperature_flow_id temperature_source_id device_id
         media_types_application_json settings in
     let temperature_ws_sender :=
       make_sender_with_transport temperature_ws_sender_id temperature_flow_id
         transports_websocket device_id EmptyString ["example"] settings in
     let connection_temperature_ws_sender :=
       make_connection_events_websocket_sender temperature_ws_sender_id device_id
         temperature_source_id settings in
     let* connection_temperature_ws_sender :=
       local (call_resolve_auto resolve_auto temperature_ws_sender
                connection_temperature_ws_sender) in
     unless* insert_resource_after delay_millis in_node_resources
               temperature_source return_in
     unless* insert_resource_after delay_millis in_node_resources
               temperature_flow return_in
     unless* insert_resource_after delay_millis in_node_resources
               temperature_ws_sender return_in
     unless* insert_resource_after delay_millis in_connection_resources
               connection_temperature_ws_sender return_in
     unless* insert_resource_after delay_millis in_events_resources
               events_temperature_source return_in
     temperature_receiver_block
   else
     temperature_receiver_block).

End node_implementation.

(** ** Definitions used to state the properties *)

(** The legs of a parameter set after a call that extends it to at least [n]
    legs (nulls at the end) and turns leg [j] into [G j] of it. *)
Definition legwise (n : nat) (G : nat -> value -> value) (legs : list value) : list value :=
  imap G (legs ++ replicate (n - length legs) JNull)%list.

(** [c] cannot raise on an array: it extends it to [n] legs and turns leg [j]
    into [G j] of it, and [G j] leaves a null leg alone. *)
Definition is_legwise (c : M value unit) (n : nat) (G : nat -> value -> value) : Prop :=
  (forall j, G j JNull = JNull) /\
  (forall legs, c (JArray legs) = (Val tt, JArray (legwise n G legs))).


(** Running a computation twice on the same object. *)
Definition twice {S : Type} (c : M S unit) : M S unit :=
  do* c in c.

Definition namespace_eqb (a b : namespace) : bool :=
  match a, b with
  | in_node_resources, in_node_resources
  | in_connection_resources, in_connection_resources
  | in_events_resources, in_events_resources => true
  | _, _ => false
  end.

Definition was_inserted (a : attempt) : bool :=
  match result a with
  | inserted => true
  | _ => false
  end.

(** A namespace after the insertions of a history, from the namespace before. *)
Definition replay (ns : namespace) (attempts : list attempt) (rs : resources) : resources :=
  fold_left
    (fun rs a =>
       if namespace_eqb (target a) ns && was_inserted a
       then <[id (attempted a) := attempted a]> rs else rs)
    attempts rs.

(** [new] is what a run from [w] to [w'] added to the history: a call that
    did not insert is the last one, and the namespaces of [w'] are those of
    [w] with the insertions of [new]. *)
Definition accounts_for (w w' : world) (new : list attempt) : Prop :=
  history w' = (history w ++ new)%list
  /\ (forall pre a post,
        new = (pre ++ a :: post)%list -> was_inserted a = false -> post = [])
  /\ (forall ns,
        get_resources ns (model w') = replay ns new (get_resources ns (model w))).

Definition fail_fast_at {A : Type} (c : M world A) (w : world) : Prop :=
  exists new, accounts_for w (snd (c w)) new.

(** Case analysis on what the resolver tests of one parameter, innermost call
    first. *)
Ltac split_tests :=
  repeat first
    [ match goal with
      | |- context [resolve_entry ?key ?f (?k, ?v)] =>
          change (resolve_entry key f (k, v))
            with (if String.eqb k key && is_auto v then (k, f tt) else (k, v))
      | |- context [resolve_rtp_entry ?t ?leg (?k, ?v)] =>
          change (resolve_rtp_entry t leg (k, v))
            with (if is_auto v
                  then match rtp_auto_value t leg k with
                       | Some x => (k, x)
                       | None => (k, v)
                       end
                  else (k, v))
      end
    | match goal with
      | H : ?t = _ |- context [?t] => rewrite H
      end
    | match goal with
      | |- context [is_auto ?v] => is_var v; destruct (is_auto v) eqn:?
      | |- context [rtp_auto_value ?t ?j ?k] =>
          is_var k; destruct (rtp_auto_value t j k) eqn:?
      | |- context [String.eqb ?a ?b] => is_var a; destruct (String.eqb a b) eqn:?
      end
    | progress simpl ];
  try (intros; congruence).

(** ** A small instance of the library

    It is there to run the definitions on concrete inputs. *)

Definition example_resource (i : string) (t : types.type) (fields : list (string * value))
  : resource :=
  {| id := i; type := t; data := JObject (("id", JString i) :: fields) |}.

Definition example_events_port (settings : value) : Z :=
  match settings with
  | JObject fields =>
      match find_field "events_port" fields with
      | Some (JNumber n) => n
      | _ => (-1)%Z
      end
  | _ => (-1)%Z
  end.

Definition example_push_back (v x : value) : outcome value :=
  match v with
  | JNull => Val (JArray [x])
  | JArray elements => Val (JArray (elements ++ [x])%list)
  | _ => Exn json_exception
  end.

Definition example_rtp_auto_value (t : types.type) (leg : nat) (key : string) : option value :=
  match t with
  | types.sender =>
      if String.eqb key "source_port" then Some (JNumber 5004)
      else if String.eqb key "destination_port" then Some (JNumber 5004)
      else if String.eqb key "rtp_enabled" then Some (JBool true)
      else None
  | types.receiver =>
      if String.eqb key "destination_port" then Some (JNumber 5004)
      else if String.eqb key "rtp_enabled" then Some (JBool true)
      else None
  | _ => None
  end.

Definition example_library : nmos_library := {|
  seed_id := fun _ => "seed";
  events_port := example_events_port;
  make_repeatable_id := fun seed name => seed ++ name;
  endpoint_active := "active";
  endpoint_transportfile := "transportfile";
  transport_params := "transport_params";
  source_ip := "source_ip";
  destination_ip := "destination_ip";
  interface_ip := "interface_ip";
  connection_uri := "connection_uri";
  connection_authorization := "connection_authorization";
  group_hint := "urn:x-nmos:tag:grouphint/v1.0";
  make_group_hint := fun hint => JString (fst hint ++ ":" ++ snd hint);
  push_back := example_push_back;
  transports_rtp_mcast := "urn:x-nmos:transport:rtp.mcast";
  transports_websocket := "urn:x-nmos:transport:websocket";
  media_types_application_json := "application/json";
  event_types_number := "number";
  event_types_wildcard := "*";
  event_types_measurement := fun base name unit_ => base ++ "/" ++ name ++ "/" ++ unit_;
  make_node := fun i _ => example_resource i types.node [];
  make_device := fun i node_id _ _ _ =>
    example_resource i types.device [("node_id", JString node_id)];
  make_video_source := fun i device_id _ _ =>
    example_resource i types.source [("device_id", JString device_id)];
  make_raw_video_flow := fun i source_id _ _ =>
    example_resource i types.flow [("source_id", JString source_id)];
  make_sender := fun i flow_id _ _ _ =>
    example_resource i types.sender [("flow_id", JString flow_id)];
  make_sender_with_transport := fun i flow_id transport _ _ _ _ =>
    example_resource i types.sender
      [("flow_id", JString flow_id); ("transport", JString transport)];
  make_video_receiver := fun i _ transport _ _ =>
    example_resource i types.receiver [("transport", JString transport)];
  make_data_source := fun i _ _ event_type _ =>
    example_resource i types.source [("event_type", JString event_type)];
  make_data_flow := fun i source_id _ _ _ =>
    example_resource i types.flow [("source_id", JString source_id)];
  make_data_receiver := fun i _ transport _ _ _ _ =>
    example_resource i types.receiver [("transport", JString transport)];
  make_connection_rtp_sender := fun i _ =>
    example_resource i types.sender
      [("active",
        JObject [("transport_params",
                  JArray [JObject [("source_ip", JString "auto");
                                   ("destination_ip", JString "auto");
                                   ("source_port", JString "auto")];
                          JObject [("source_ip", JString "auto");
                                   ("destination_ip", JString "auto");
                                   ("source_port", JString "auto")]])])];
  make_connection_rtp_receiver := fun i _ =>
    example_resource i types.receiver
      [("active",
        JObject [("transport_params",
                  JArray [JObject [("interface_ip", JString "auto")];
                          JObject [("interface_ip", JString "auto")]])])];
  make_connection_rtp_sender_transportfile := fun sdp =>
    JObject [("data", JString sdp); ("type", JString "application/sdp")];
  make_connection_events_websocket_sender := fun i _ _ _ =>
    example_resource i types.sender
      [("active",
        JObject [("transport_params",
                  JArray [JObject [("connection_uri", JString "auto");
                                   ("connection_authorization", JString "auto")]])])];
  make_connection_events_websocket_receiver := fun i _ =>
    example_resource i types.receiver
      [("active",
        JObject [("transport_params",
                  JArray [JObject [("connection_uri", JNull);
                                   ("connection_authorization", JString "auto")]])])];
  make_events_ws_api_connection_uri := fun device_id _ =>
    "ws://example/x-nmos/events/v1.0/devices/" ++ device_id;
  make_events_number_type := fun low high step unit_ =>
    JObject [("min", JNumber (number low)); ("max", JNumber (number high));
             ("step", JNumber (number step)); ("unit", JString unit_)];
  make_events_number_state := fun source_id x =>
    JObject [("source_id", JString source_id); ("value", JNumber (number x));
             ("scale", JNumber (scale x))];
  make_events_source := fun i state event_type =>
    example_resource i types.source [("state", state); ("type", event_type)];
  sdp_parameters := value;
  make_sdp_parameters := fun source flow sender media_stream_ids =>
    Val (JArray [source; flow; sender]);
  make_session_description := fun sdp_params params => Val (JArray [sdp_params; params]);
  sdp_make_session_description := fun _ => Val "v=0";
  s2us := fun s => s;
  rtp_auto_value := example_rtp_auto_value
|}.

Definition example_settings : value := JObject [("events_port", JNumber 3216)].

Definition example_model : node_model :=
  {| settings := example_settings; node_resources := ∅; connection_resources := ∅;
     events_resources := ∅; shutdown := false; notifications := 0 |}.

Definition example_world (requests : list bool) : world :=
  {| model := example_model; requests := requests; history := [] |}.

Definition example_sender_id : string := "seed/x-nmos/node/sender/0".

Definition example_ws_sender_id : string := "seed/x-nmos/node/sender/1".

Definition example_ws_receiver_id : string := "seed/x-nmos/node/receiver/1".

Definition example_source : resource :=
  @make_video_source example_library "seed/x-nmos/node/source/0"
    "seed/x-nmos/node/device/0" (25, 1)%Z example_settings.

Definition example_flow : resource :=
  @make_raw_video_flow example_library "seed/x-nmos/node/flow/0"
    "seed/x-nmos/node/source/0" "seed/x-nmos/node/device/0" example_settings.

Definition example_sender : resource :=
  @make_sender example_library example_sender_id "seed/x-nmos/node/flow/0"
    "seed/x-nmos/node/device/0" ["example"; "example"] example_settings.

(** Node resources that hold the example source and flow. *)
Definition example_node_resources : resources :=
  <[id example_source := example_source]> (<[id example_flow := example_flow]> ∅).

(** The two legs of an RTP sender, every parameter but one marked "auto". *)
Definition example_sender_leg : list (string * value) :=
  [("source_ip", JString "auto"); ("destination_ip", JString "auto");
   ("source_port", JString "auto"); ("destination_port", JString "auto");
   ("rtp_enabled", JBool true)].

(** Two connection senders with the same id and the same active transport
    parameters, and different data otherwise. *)
Definition example_connection_sender : resource :=
  example_resource example_sender_id types.sender
    [("active",
      JObject [("transport_params",
                JArray [JObject example_sender_leg; JObject example_sender_leg])])].

Definition example_connection_sender_variant : resource :=
  example_resource example_sender_id types.sender
    [("staged", JNull);
     ("active",
      JObject [("master_enable", JBool true);
               ("transport_params",
                JArray [JObject example_sender_leg; JObject example_sender_leg])])].

(** The leg of a websocket receiver in which the URI is still "auto". *)
Definition example_ws_receiver_leg : list (string * value) :=
  [("connection_uri", JString "auto"); ("connection_authorization", JString "auto")].

(** The run in which shutdown is requested during the third wait. *)
Definition example_interrupted_history : list attempt :=
  Eval vm_compute in
    history (snd (@node_implementation_thread example_library
                    (example_world [false; false; true]))).

(** ** Further definitions

    What the properties of the second part are stated with. *)

(** A call of [insert_resource_after] that got past the wait: it signalled
    the condition. *)
Definition signalled (a : attempt) : bool :=
  match result a with
  | shutdown_observed => false
  | _ => true
  end.

(** The namespaces that the calls of [insert_resource_after] of the thread are
    given, in the order of the source (lines 84-167). *)
Definition expected_targets `{nmos : nmos_library} (settings : value) : list namespace :=
  ([in_node_resources; in_node_resources; in_node_resources; in_node_resources;
    in_node_resources; in_connection_resources;
    in_node_resources; in_connection_resources]
   ++ (if (0 <=? events_port settings)%Z
       then [in_node_resources; in_node_resources; in_node_resources;
             in_connection_resources; in_events_resources]
       else [])
   ++ [in_node_resources; in_connection_resources])%list.

(** What a run from [w] to [w'] with the calls [new] has done besides the
    insertions: the namespaces of the calls are the first of [expected], each
    call waited once, each call that got past its wait signalled once, and
    the settings are as they were. *)
Definition tally (w w' : world) (new : list attempt) (expected : list namespace) : Prop :=
  history w' = (history w ++ new)%list
  /\ map target new `prefix_of` expected
  /\ notifications (model w') = notifications (model w) + length (filter signalled new)
  /\ requests w' = drop (length new) (requests w)
  /\ settings (model w') = settings (model w).

Definition tally_at {A : Type} (c : M world A) (w : world) (expected : list namespace) : Prop :=
  exists new, tally w (snd (c w)) new expected.

(** The computation does not end with a [std::logic_error]. *)
Definition quiet_at {S A : Type} (c : M S A) (s : S) : Prop :=
  forall what, fst (c s) <> Exn (logic_error what).

Definition quiet {A : Type} (o : outcome A) : Prop :=
  forall what, o <> Exn (logic_error what).

(** The connection resource is one that the resolver knows. *)
Definition recognized `{nmos : nmos_library} (settings : value) (c : resource) : bool :=
  let seed := seed_id settings in
  String.eqb (make_repeatable_id seed "/x-nmos/node/sender/0") (id c)
  || String.eqb (make_repeatable_id seed "/x-nmos/node/receiver/0") (id c)
  || String.eqb (make_repeatable_id seed "/x-nmos/node/sender/1") (id c)
  || String.eqb (make_repeatable_id seed "/x-nmos/node/receiver/1") (id c).

(** The number of legs that the resolver indexes, by branch: [transport_params[1]]
    for the RTP sender and receiver, [transport_params[0]] for the websocket
    sender and receiver. *)
Definition legs_indexed `{nmos : nmos_library} (settings : value) (c : resource) : nat :=
  let seed := seed_id settings in
  if String.eqb (make_repeatable_id seed "/x-nmos/node/sender/0") (id c) then 2
  else if String.eqb (make_repeatable_id seed "/x-nmos/node/receiver/0") (id c) then 2
  else if String.eqb (make_repeatable_id seed "/x-nmos/node/sender/1") (id c) then 1
  else if String.eqb (make_repeatable_id seed "/x-nmos/node/receiver/1") (id c) then 1
  else 0.

(** The connection resource takes one of the two websocket branches of the
    resolver (lines 261-269). *)
Definition websocket_branch `{nmos : nmos_library} (settings : value) (c : resource) : bool :=
  let seed := seed_id settings in
  negb (String.eqb (make_repeatable_id seed "/x-nmos/node/sender/0") (id c))
  && negb (String.eqb (make_repeatable_id seed "/x-nmos/node/receiver/0") (id c))
  && (String.eqb (make_repeatable_id seed "/x-nmos/node/sender/1") (id c)
      || String.eqb (make_repeatable_id seed "/x-nmos/node/receiver/1") (id c)).

Definition is_null_or_array (v : value) : bool :=
  match v with
  | JNull | JArray _ => true
  | _ => false
  end.

(** [g] keeps the names and the order of the parameters of a leg, and the
    value of every parameter that is not "auto"; a leg that is not an object
    it leaves alone. *)
Definition keeps_concrete (g : value -> value) : Prop :=
  (forall fields,
      exists fields',
        g (JObject fields) = JObject fields'
        /\ length fields' = length fields
        /\ (forall p k v,
              fields !! p = Some (k, v) ->
              exists v', fields' !! p = Some (k, v') /\ (is_auto v = false -> v' = v)))
  /\ (forall leg, (forall fields, leg <> JObject fields) -> g leg = leg).

(** [c] is leg by leg ([is_legwise]) and careful with every leg
    ([keeps_concrete]). *)
Definition is_careful (c : M value unit) (n : nat) (G : nat -> value -> value) : Prop :=
  is_legwise c n G /\ (forall j, keeps_concrete (G j)).

(** The world after a series of calls of [insert_resource_after], each with
    its delay, namespace and resource, oldest first. *)
Definition insert_resources_after (calls : list (nat * namespace * resource)) (w : world)
  : world :=
  foldl (fun w call => snd (insert_resource_after call.1.1 call.1.2 call.2 w)) w calls.

(** ** Further concrete inputs *)

(** A model whose settings have no events port. *)
Definition example_world_without_events : world :=
  {| model := {| settings := JNull; node_resources := ∅; connection_resources := ∅;
                 events_resources := ∅; shutdown := false; notifications := 0 |};
     requests := [];
     history := [] |}.

(** The world after the example source has been inserted into an empty model. *)
Definition example_world_with_source : world :=
  Eval vm_compute in
    snd (insert_resource_after 10 in_node_resources example_source (example_world [])).

(** * Properties *)

Section properties.

Context `{nmos : nmos_library}.

(** ** Parameter sets leg by leg *)

Lemma length_legwise n G legs :
  length (legwise n G legs) = Nat.max (length legs) n.
Proof.
  unfold legwise. rewrite length_imap, List.length_app, length_replicate. lia.
Qed.

Lemma lookup_legwise n G legs i :
  legwise n G legs !! i =
    if decide (i < Nat.max (length legs) n)
    then Some (G i (default JNull (legs !! i))) else None.
Proof.
  unfold legwise. rewrite list_lookup_imap, lookup_app.
  destruct (legs !! i) as [leg|] eqn:E; simpl.
  - apply lookup_lt_Some in E. case_decide; [done | lia].
  - apply lookup_ge_None in E. case_decide.
    + rewrite lookup_replicate_2 by lia. done.
    + assert (replicate (n - length legs) JNull !! (i - length legs) = None) as ->; [|done].
      apply lookup_replicate_None. lia.
Qed.

Lemma legwise_legwise n1 n2 G1 G2 legs :
  (forall j, G1 j JNull = JNull) ->
  legwise n2 G2 (legwise n1 G1 legs) =
    legwise (Nat.max n1 n2) (fun j leg => G2 j (G1 j leg)) legs.
Proof.
  intros HG. apply list_eq; intros i.
  rewrite !lookup_legwise, length_legwise.
  repeat case_decide; try lia; simpl; try done.
  f_equal. f_equal.
  assert (legs !! i = None) as -> by (apply lookup_ge_None; lia).
  simpl. symmetry. apply HG.
Qed.

Lemma legwise_ext n G1 G2 legs :
  (forall j leg, G1 j leg = G2 j leg) -> legwise n G1 legs = legwise n G2 legs.
Proof.
  intros HG. unfold legwise. apply imap_ext. intros; apply HG.
Qed.

Lemma legwise_0 G legs : legwise 0 G legs = imap G legs.
Proof. unfold legwise. simpl. by rewrite app_nil_r. Qed.

(** A call on leg [i] that cannot raise is a leg-by-leg update. *)
Lemma at_index_legwise i g legs :
  at_index i (fun leg => (Val tt, g leg)) (JArray legs) =
    (Val tt, JArray (legwise (S i) (fun j leg => if decide (j = i) then g leg else leg) legs)).
Proof.
  unfold at_index. simpl. f_equal. f_equal.
  apply list_eq; intros j.
  rewrite lookup_legwise, list_lookup_insert, nth_lookup.
  rewrite List.length_app, length_replicate, !lookup_app.
  destruct (decide (i = j)) as [->|Hij].
  - rewrite decide_True by lia. rewrite decide_True by lia. rewrite decide_True by done.
    do 2 f_equal. destruct (legs !! j) as [leg|] eqn:E; simpl; [done|].
    apply lookup_ge_None in E. rewrite lookup_replicate_2 by lia. done.
  - rewrite decide_False by tauto. rewrite (decide_False (P := j = i)) by done.
    destruct (legs !! j) as [leg|] eqn:E; simpl.
    + apply lookup_lt_Some in E. rewrite decide_True by lia. done.
    + apply lookup_ge_None in E. case_decide.
      * rewrite lookup_replicate_2 by lia. done.
      * apply lookup_replicate_None. lia.
Qed.

(** ** The leg-by-leg form of the resolver's steps *)

Lemma is_legwise_bind c1 c2 n1 n2 G1 G2 :
  is_legwise c1 n1 G1 -> is_legwise c2 n2 G2 ->
  is_legwise (bind c1 (fun _ => c2)) (Nat.max n1 n2) (fun j leg => G2 j (G1 j leg)).
Proof.
  intros [HG1 H1] [HG2 H2]. split.
  - intros j. by rewrite HG1, HG2.
  - intros legs. unfold bind. rewrite H1, H2. by rewrite legwise_legwise.
Qed.

Lemma is_legwise_rtp t :
  is_legwise (resolve_rtp_auto t) 0 (resolve_rtp_leg t).
Proof.
  split; [done|]. intros legs. unfold resolve_rtp_auto. by rewrite legwise_0.
Qed.

Lemma is_legwise_at_index i key auto_fun :
  is_legwise (at_index i (details_resolve_auto key auto_fun)) (S i)
    (fun j leg => if decide (j = i) then resolved_leg key auto_fun leg else leg).
Proof.
  split.
  - intros j. by case_decide.
  - intros legs. apply (at_index_legwise i (resolved_leg key auto_fun)).
Qed.

Lemma legwise_returns c n G legs :
  is_legwise c n G -> c (JArray legs) = (Val tt, JArray (legwise n G legs)).
Proof. intros [_ Hc]. apply Hc. Qed.

Lemma twice_legwise c n G legs :
  is_legwise c n G -> (forall j leg, G j (G j leg) = G j leg) ->
  twice c (JArray legs) = c (JArray legs).
Proof.
  intros [HG Hc] Hidem. unfold twice, bind. rewrite !Hc.
  rewrite legwise_legwise by done. rewrite Nat.max_id.
  do 2 f_equal. apply legwise_ext. intros; apply Hidem.
Qed.

(** C5.  The auto-resolver is idempotent: running it a second time on the
    parameter set that the first run left gives the same outcome and the
    same parameter set as the first run alone, for every connection resource
    and every JSON value. *)
Theorem auto_resolver_idempotent settings r c params :
  twice (make_node_implementation_auto_resolver settings r c) params =
    make_node_implementation_auto_resolver settings r c params.
Proof.
  unfold make_node_implementation_auto_resolver. simpl.
  generalize (make_events_ws_api_connection_uri
                (make_repeatable_id (seed_id settings) "/x-nmos/node/device/0") settings).
  intros uri.
  repeat match goal with
         | |- context [if String.eqb ?a ?b then _ else _] => destruct (String.eqb a b)
         end.
  all: destruct params as [| b | n | s | legs | fields]; try reflexivity.
  all: eapply twice_legwise;
    [repeat first
      [ apply is_legwise_rtp | apply is_legwise_at_index | eapply is_legwise_bind ] |].
  all: intros [|[|j]] [| b | n | s | elements | fields]; try reflexivity.
  all: simpl; f_equal; rewrite ?map_map; apply map_ext; intros [k v].
  all: repeat match goal with
              | |- context [resolve_entry _ (fun _ => ?x)] =>
                  assert_fails (is_var x); generalize x; intro
              end.
  all: split_tests.
Qed.

(** C6.  For a connection resource whose id is none of the four ids that the
    resolver knows, the resolver returns normally and leaves the transport
    parameters as they were. *)
Theorem auto_resolver_unknown_identity settings r c params :
  id c <> make_repeatable_id (seed_id settings) "/x-nmos/node/sender/0" ->
  id c <> make_repeatable_id (seed_id settings) "/x-nmos/node/receiver/0" ->
  id c <> make_repeatable_id (seed_id settings) "/x-nmos/node/sender/1" ->
  id c <> make_repeatable_id (seed_id settings) "/x-nmos/node/receiver/1" ->
  make_node_implementation_auto_resolver settings r c params = (Val tt, params).
Proof.
  intros Hs Hr Hws Hwr.
  unfold make_node_implementation_auto_resolver. simpl.
  rewrite !(proj2 (String.eqb_neq _ _)) by (intros E; symmetry in E; contradiction).
  reflexivity.
Qed.





(** ** The transport file setter *)

(** The setter only reads the node resources. *)
Lemma transportfile_setter_keeps_store settings sender c st :
  fst (snd (make_node_implementation_transportfile_setter settings sender c st)) = fst st.
Proof.
  unfold make_node_implementation_transportfile_setter. simpl.
  destruct st as [rs file]. simpl.
  repeat match goal with
         | |- context [if ?b then _ else _] => destruct b
         | |- context [match ?o with Some _ => _ | None => _ end] => destruct o
         | |- context [match ?o with Val _ => _ | Exn _ => _ end] => destruct o
         end; reflexivity.
Qed.

(** C10.  For a connection sender whose id is not the id of the example RTP
    sender, the setter returns normally and leaves both the node resources and
    the transport file given to it as they were. *)
Theorem transportfile_setter_other_senders settings sender c st :
  id c <> make_repeatable_id (seed_id settings) "/x-nmos/node/sender/0" ->
  make_node_implementation_transportfile_setter settings sender c st = (Val tt, st).
Proof.
  intros Hid. unfold make_node_implementation_transportfile_setter. simpl.
  rewrite (proj2 (String.eqb_neq _ _)) by (intros E; symmetry in E; contradiction).
  reflexivity.
Qed.

(** C3, as the code has it.  For the example RTP sender, when the example
    source or the example flow is not among the node resources, the setter
    raises the logic error and leaves the node resources and the transport
    file as they were. *)
Theorem transportfile_setter_missing_source_or_flow settings sender c st :
  id c = make_repeatable_id (seed_id settings) "/x-nmos/node/sender/0" ->
  find_resource (fst st)
    (make_repeatable_id (seed_id settings) "/x-nmos/node/source/0", types.source) = None
  \/ find_resource (fst st)
       (make_repeatable_id (seed_id settings) "/x-nmos/node/flow/0", types.flow) = None ->
  make_node_implementation_transportfile_setter settings sender c st =
    (Exn (logic_error "matching IS-04 source or flow not found"), st).
Proof.
  intros Hid Hmissing. unfold make_node_implementation_transportfile_setter. simpl.
  rewrite Hid, String.eqb_refl.
  destruct Hmissing as [-> | ->]; [reflexivity|].
  by destruct (find_resource _ _).
Qed.

(** The transport parameters that the setter reads from a connection sender. *)
Lemma transportfile_setter_found settings sender c st src flw :
  id c = make_repeatable_id (seed_id settings) "/x-nmos/node/sender/0" ->
  find_resource (fst st)
    (make_repeatable_id (seed_id settings) "/x-nmos/node/source/0", types.source) = Some src ->
  find_resource (fst st)
    (make_repeatable_id (seed_id settings) "/x-nmos/node/flow/0", types.flow) = Some flw ->
  make_node_implementation_transportfile_setter settings sender c st =
    match transport_description (data src) (data flw) (data sender) (data c) with
    | Val file => (Val tt, (fst st, file))
    | Exn e => (Exn e, st)
    end.
Proof.
  intros Hid Hs Hf. unfold make_node_implementation_transportfile_setter. simpl.
  rewrite Hid, String.eqb_refl, Hs, Hf. reflexivity.
Qed.

End properties.

Section thread_properties.

Context `{nmos : nmos_library}.

(** C7.  The temperature written at TAI second [t], for [t] not negative, is
    [175 + |t mod 100 - 50|] at scale 10, between 175 and 225 (17.5 to 22.5
    degrees); at second 150 it is 175. *)
Theorem temperature_value_bounds (t : Z) :
  (0 <= t)%Z ->
  number (temperature_value t) = (175 + Z.abs (t mod 100 - 50))%Z
  /\ (175 <= number (temperature_value t) <= 225)%Z
  /\ scale (temperature_value t) = 10%Z
  /\ temperature_value 150 = {| number := 175; scale := 10 |}.
Proof.
  intros Ht. unfold temperature_value. simpl.
  rewrite Z.rem_mod_nonneg by lia.
  pose proof (Z.mod_pos_bound t 100 ltac:(lia)).
  repeat split; lia.
Qed.

(** ** The start-up sequence *)

Lemma set_resources_same ns m : set_resources ns (get_resources ns m) m = m.
Proof. by destruct ns, m. Qed.

Lemma with_model_same w : with_model w (model w) = w.
Proof. by destruct w. Qed.

Lemma replay_app ns l1 l2 rs :
  replay ns (l1 ++ l2) rs = replay ns l2 (replay ns l1 rs).
Proof. unfold replay. apply fold_left_app. Qed.

Lemma replay_not_inserted ns a rs :
  was_inserted a = false -> replay ns [a] rs = rs.
Proof. intros H. unfold replay. simpl. by rewrite H, andb_false_r. Qed.

Lemma accounts_for_nothing w : accounts_for w w [].
Proof.
  split; [by rewrite app_nil_r|]. split; [|done].
  intros [|] ? ? ?; discriminate.
Qed.

Lemma accounts_for_failure w w' a :
  history w' = (history w ++ [a])%list ->
  was_inserted a = false ->
  (forall ns, get_resources ns (model w') = get_resources ns (model w)) ->
  accounts_for w w' [a].
Proof.
  intros Hh Ha Hns. split; [done|]. split.
  - intros [|b [|? ?]] ? post Heq _; simplify_eq/=; done.
  - intros ns. by rewrite replay_not_inserted.
Qed.

Lemma accounts_for_step w w1 w' a new :
  history w1 = (history w ++ [a])%list ->
  was_inserted a = true ->
  (forall ns, get_resources ns (model w1) = replay ns [a] (get_resources ns (model w))) ->
  accounts_for w1 w' new ->
  accounts_for w w' (a :: new).
Proof.
  intros Hh Ha Hns (Hh' & Hff & Hns'). split; [|split].
  - rewrite Hh', Hh, <- app_assoc. done.
  - intros [|b pre] c post Heq Hc; simplify_eq/=.
    + congruence.
    + by eapply Hff.
  - intros ns. rewrite Hns', Hns. symmetry. apply (replay_app ns [a] new).
Qed.

(** What [insert_resource_after] does when the wait ends with the shutdown
    flag set. *)
Lemma insert_resource_after_shutdown ms ns r w :
  shutdown (model w) = true \/ head (requests w) = Some true ->
  exists w',
    insert_resource_after ms ns r w = (Val false, w')
    /\ history w' = (history w ++ [make_attempt ns r shutdown_observed])%list
    /\ shutdown (model w') = true
    /\ notifications (model w') = notifications (model w)
    /\ (forall ns', get_resources ns' (model w') = get_resources ns' (model w)).
Proof.
  intros Hstop.
  assert (shutdown (model w) || match requests w with [] => false | b :: _ => b end = true)
    as Hflag.
  { destruct Hstop as [-> | Hreq]; [done|].
    destruct (requests w); simplify_eq/=. apply orb_true_r. }
  unfold insert_resource_after, bind, wait_for_shutdown. simpl. rewrite Hflag.
  eexists. split; [reflexivity|]. simpl. repeat split; try done.
Qed.

Lemma fail_fast_ret w : fail_fast_at (ret tt) w.
Proof. exists []. apply accounts_for_nothing. Qed.

Lemma fail_fast_settings {B} (k : value -> M world B) w :
  (forall s, fail_fast_at (k s) w) -> fail_fast_at (bind model_settings k) w.
Proof. intros Hk. apply Hk. Qed.

Lemma fail_fast_local {A B} (o : outcome A) (k : A -> M world B) w :
  (forall a, fail_fast_at (k a) w) -> fail_fast_at (bind (local o) k) w.
Proof.
  intros Hk. unfold fail_fast_at, bind, local. destruct o as [a|e].
  - apply Hk.
  - exists []. apply accounts_for_nothing.
Qed.

Lemma call_set_transportfile_keeps_world settings r c w :
  snd (call_set_transportfile (make_node_implementation_transportfile_setter settings) r c w)
  = w.
Proof.
  unfold call_set_transportfile.
  destruct (fields_for_key _ _) as [fields|e]; [|done].
  pose proof (transportfile_setter_keeps_store settings r (with_data c (JObject fields))
                (node_resources (model w), field_or_null endpoint_transportfile fields)) as Hrs.
  destruct (make_node_implementation_transportfile_setter _ _ _ _) as [o [rs file]].
  simpl in Hrs. subst rs.
  rewrite (set_resources_same in_node_resources), with_model_same.
  by destruct o.
Qed.

Lemma fail_fast_set_transportfile {B} settings r c (k : resource -> M world B) w :
  (forall a, fail_fast_at (k a) w) ->
  fail_fast_at
    (bind (call_set_transportfile (make_node_implementation_transportfile_setter settings) r c) k)
    w.
Proof.
  intros Hk. unfold fail_fast_at, bind.
  pose proof (call_set_transportfile_keeps_world settings r c w) as Hw.
  destruct (call_set_transportfile _ _ _ _) as [[a|e] w1]; simpl in Hw; subst w1.
  - apply Hk.
  - exists []. apply accounts_for_nothing.
Qed.

Lemma fail_fast_or_return ms ns r k w :
  (forall w', fail_fast_at k w') ->
  fail_fast_at (or_return (insert_resource_after ms ns r) k) w.
Proof.
  intros Hk. unfold fail_fast_at, or_return, bind at 1.
  unfold insert_resource_after, bind, wait_for_shutdown. simpl.
  destruct (shutdown (model w) || _) eqn:Hflag; simpl.
  - eexists. apply accounts_for_failure; simpl; [done|done|]. by intros [].
  - unfold insert_resource.
    destruct (get_resources ns _ !! id r) as [old|] eqn:Hold; simpl.
    + eexists. apply accounts_for_failure; simpl; [done|done|].
      intros ns'. rewrite set_resources_same. by destruct ns'.
    + match goal with |- context [k ?w1] => destruct (Hk w1) as [new Hnew] end.
      eexists. eapply accounts_for_step; [| |  |apply Hnew]; simpl; [done|done|].
      intros ns'. unfold replay. simpl.
      destruct ns, ns'; simpl; reflexivity.
Qed.

(** Every run of the thread is fail-fast. *)
Lemma node_implementation_thread_fail_fast w :
  fail_fast_at node_implementation_thread w.
Proof.
  unfold node_implementation_thread.
  apply fail_fast_settings. intros s. cbv zeta.
  repeat first
    [ apply fail_fast_ret
    | apply fail_fast_or_return; intros ?
    | apply fail_fast_set_transportfile; intros ?
    | apply fail_fast_local; intros ?
    | match goal with
      | |- fail_fast_at (if ?b then _ else _) _ => destruct b
      end ].
Qed.

(** C8.  The start-up sequence is fail-fast: when a call of
    [insert_resource_after] of a run does not insert its resource (a duplicate,
    or shutdown observed), it is the last call of the run, and the namespaces
    at the end are those at the start with the resources inserted before it:
    nothing that comes later in the sequence is inserted anywhere. *)
Theorem startup_is_fail_fast w pre a post :
  history (snd (node_implementation_thread w)) = (history w ++ pre ++ a :: post)%list ->
  was_inserted a = false ->
  post = []
  /\ (forall ns,
        get_resources ns (model (snd (node_implementation_thread w))) =
          replay ns pre (get_resources ns (model w))).
Proof.
  intros Hhistory Hfailed.
  destruct (node_implementation_thread_fail_fast w) as (new & Hh & Hff & Hns).
  rewrite Hh in Hhistory. apply app_inv_head in Hhistory. subst new.
  assert (post = []) as -> by (by eapply Hff).
  split; [done|]. intros ns.
  rewrite Hns, replay_app. by apply replay_not_inserted.
Qed.

(** A thread that starts with the shutdown flag set, or requested during its
    first wait, inserts nothing. *)
Lemma node_implementation_thread_shutdown w :
  shutdown (model w) = true \/ head (requests w) = Some true ->
  exists w',
    snd (node_implementation_thread w) = w'
    /\ notifications (model w') = notifications (model w)
    /\ (forall ns, get_resources ns (model w') = get_resources ns (model w)).
Proof.
  intros Hstop.
  unfold node_implementation_thread. unfold bind at 1. unfold model_settings.
  cbv beta iota zeta.
  unfold bind at 1. unfold local at 1.
  destruct (obind _ _) as [node|e]; [|by exists w].
  unfold or_return at 1. unfold bind at 1.
  destruct (insert_resource_after_shutdown 10 in_node_resources node w Hstop)
    as (w' & -> & _ & _ & ? & ?).
  by exists w'.
Qed.

(** C9.  When the shutdown flag is set at the time of the wait, or
    shutdown is requested during it, [insert_resource_after] returns false,
    with no namespace changed and the condition not signalled; and a thread
    that starts in such a state ends with no namespace changed. *)
Theorem shutdown_stops_insertion ms ns r w :
  shutdown (model w) = true \/ head (requests w) = Some true ->
  (exists w',
      insert_resource_after ms ns r w = (Val false, w')
      /\ shutdown (model w') = true
      /\ notifications (model w') = notifications (model w)
      /\ (forall ns', get_resources ns' (model w') = get_resources ns' (model w)))
  /\ (let w' := snd (node_implementation_thread w) in
      notifications (model w') = notifications (model w)
      /\ (forall ns', get_resources ns' (model w') = get_resources ns' (model w))).
Proof.
  intros Hstop. split.
  - destruct (insert_resource_after_shutdown ms ns r w Hstop) as (w' & ? & ? & ? & ? & ?).
    by exists w'.
  - destruct (node_implementation_thread_shutdown w Hstop) as (w' & -> & ? & ?).
    done.
Qed.

End thread_properties.

(** * The properties on concrete inputs *)




(** C3 fails as stated: for the websocket temperature sender the setter
    returns normally although no source and no flow is among the node
    resources. *)
Lemma ws_sender_without_source_returns :
  @make_node_implementation_transportfile_setter example_library example_settings
    (example_resource example_ws_sender_id types.sender
       [("flow_id", JString "seed/x-nmos/node/flow/1")])
    (example_resource example_ws_sender_id types.sender [])
    (∅, JNull)
  = (Val tt, (∅, JNull))
  /\ find_resource (∅ : resources) ("seed/x-nmos/node/flow/1", types.flow) = None
  /\ find_resource (∅ : resources) ("seed/x-nmos/node/source/1", types.source) = None.
Proof. repeat split; reflexivity. Qed.

(** The example RTP sender with the source among the node resources and the
    flow missing. *)
Lemma transportfile_setter_missing_source_or_flow_example :
  @make_node_implementation_transportfile_setter example_library example_settings
    example_sender (example_resource example_sender_id types.sender [])
    (<[id example_source := example_source]> ∅, JNull)
  = (Exn (logic_error "matching IS-04 source or flow not found"),
     (<[id example_source := example_source]> ∅, JNull)).
Proof.
  apply (@transportfile_setter_missing_source_or_flow example_library example_settings
           example_sender (example_resource example_sender_id types.sender [])
           (<[id example_source := example_source]> ∅, JNull)).
  - reflexivity.
  - right. vm_compute. reflexivity.
Defined.

(** A connection sender that the resolver does not know. *)
Lemma auto_resolver_unknown_identity_example :
  @make_node_implementation_auto_resolver example_library example_settings
    example_sender (example_resource "seed/x-nmos/node/sender/2" types.sender [])
    (JArray [JObject example_sender_leg])
  = (Val tt, JArray [JObject example_sender_leg]).
Proof.
  apply (@auto_resolver_unknown_identity example_library example_settings example_sender
           (example_resource "seed/x-nmos/node/sender/2" types.sender [])
           (JArray [JObject example_sender_leg]));
    vm_compute; discriminate.
Defined.

(** The websocket temperature sender. *)
Lemma transportfile_setter_other_senders_example :
  @make_node_implementation_transportfile_setter example_library example_settings
    example_sender (example_resource example_ws_sender_id types.sender [])
    (example_node_resources, JString "stale")
  = (Val tt, (example_node_resources, JString "stale")).
Proof.
  apply (@transportfile_setter_other_senders example_library example_settings example_sender
           (example_resource example_ws_sender_id types.sender [])
           (example_node_resources, JString "stale")).
  vm_compute. discriminate.
Defined.

(** TAI second 150. *)
Lemma temperature_value_bounds_example :
  number (temperature_value 150) = (175 + Z.abs (150 mod 100 - 50))%Z
  /\ (175 <= number (temperature_value 150) <= 225)%Z
  /\ scale (temperature_value 150) = 10%Z
  /\ temperature_value 150 = {| number := 175; scale := 10 |}.
Proof. apply (temperature_value_bounds 150). lia. Defined.

(** Shutdown requested during the third wait: the node and the device are
    inserted, the source and everything after it are not. *)
Lemma startup_is_fail_fast_example :
  ([] : list attempt) = []
  /\ (forall ns,
        get_resources ns
          (model (snd (@node_implementation_thread example_library
                         (example_world [false; false; true])))) =
          replay ns (firstn 2 example_interrupted_history)
            (get_resources ns (model (example_world [false; false; true])))).
Proof.
  apply (@startup_is_fail_fast example_library (example_world [false; false; true])
           (firstn 2 example_interrupted_history)
           (nth 2 example_interrupted_history
              (make_attempt in_node_resources example_source inserted))
           []).
  - vm_compute. reflexivity.
  - reflexivity.
Defined.

(** Shutdown requested during the first wait. *)
Lemma shutdown_stops_insertion_example :
  (exists w',
      insert_resource_after 10 in_node_resources example_source (example_world [true])
      = (Val false, w')
      /\ shutdown (model w') = true
      /\ notifications (model w') = notifications (model (example_world [true]))
      /\ (forall ns',
            get_resources ns' (model w') = get_resources ns' (model (example_world [true]))))
  /\ (let w' := snd (@node_implementation_thread example_library (example_world [true])) in
      notifications (model w') = notifications (model (example_world [true]))
      /\ (forall ns',
            get_resources ns' (model w') = get_resources ns' (model (example_world [true])))).
Proof.
  apply (@shutdown_stops_insertion example_library 10 in_node_resources example_source
           (example_world [true])).
  right. reflexivity.
Defined.

(** * Further properties *)

(** ** The temperature *)

(** X1.  From second 0 on the temperature is a triangle wave: it repeats
    every 100 seconds, it moves by exactly one tenth of a degree from one
    second to the next, it is 22.5 exactly at the seconds that are multiples
    of 100 and 17.5 exactly half way between them. *)
Theorem temperature_value_triangle (t : Z) :
  (0 <= t)%Z ->
  temperature_value (t + 100) = temperature_value t
  /\ Z.abs (number (temperature_value (t + 1)) - number (temperature_value t)) = 1%Z
  /\ (number (temperature_value t) = 225%Z <-> (t mod 100 = 0)%Z)
  /\ (number (temperature_value t) = 175%Z <-> (t mod 100 = 50)%Z).
Proof.
  intros Ht. unfold temperature_value. simpl.
  rewrite !Z.rem_mod_nonneg by lia.
  replace ((t + 100) mod 100)%Z with (t mod 100)%Z
    by (rewrite <- (Z_mod_plus_full t 1 100); f_equal; lia).
  split; [reflexivity|].
  Z.div_mod_to_equations. lia.
Qed.

Lemma temperature_value_triangle_example :
  temperature_value (199 + 100) = temperature_value 199
  /\ Z.abs (number (temperature_value (199 + 1)) - number (temperature_value 199)) = 1%Z
  /\ (number (temperature_value 199) = 225%Z <-> (199 mod 100 = 0)%Z)
  /\ (number (temperature_value 199) = 175%Z <-> (199 mod 100 = 50)%Z).
Proof. apply (temperature_value_triangle 199). lia. Defined.

(** X2.  Before second 0 the remainder of C++ has the sign of the seconds,
    so the value is 225 plus the remainder of [- t] by 100: it is between 225
    and 324, and it is within the range of the comment at line 186 (at most
    225) only at the multiples of 100, where it is 225; at every other
    negative second it is above that range. *)
Theorem temperature_value_negative_seconds (t : Z) :
  (t < 0)%Z ->
  number (temperature_value t) = (225 + (- t) mod 100)%Z
  /\ (225 <= number (temperature_value t) <= 324)%Z
  /\ ((number (temperature_value t) <= 225)%Z <-> (t mod 100 = 0)%Z)
  /\ ((t mod 100 <> 0)%Z -> (225 < number (temperature_value t))%Z).
Proof.
  intros Ht. unfold temperature_value. simpl.
  Z.quot_rem_to_equations. Z.div_mod_to_equations. lia.
Qed.

Lemma temperature_value_negative_seconds_example :
  number (temperature_value (-250)) = (225 + (- -250) mod 100)%Z
  /\ (225 <= number (temperature_value (-250)) <= 324)%Z
  /\ ((number (temperature_value (-250)) <= 225)%Z <-> (-250 mod 100 = 0)%Z)
  /\ ((-250 mod 100 <> 0)%Z -> (225 < number (temperature_value (-250)))%Z).
Proof. apply (temperature_value_negative_seconds (-250)). lia. Defined.

Section further_properties.

Context `{nmos : nmos_library}.

(** ** The transport file setter, when it raises *)

(** X3.  Whatever exception ends the setter, the node resources and the
    transport file are as they were before the call: the file is written by
    the last statement only (line 300). *)
Theorem transportfile_setter_exception_safe settings sender c st e :
  fst (make_node_implementation_transportfile_setter settings sender c st) = Exn e ->
  snd (make_node_implementation_transportfile_setter settings sender c st) = st.
Proof.
  unfold make_node_implementation_transportfile_setter. simpl.
  destruct (String.eqb _ (id c)); [|discriminate].
  destruct (find_resource _ _) as [src|]; [|reflexivity].
  destruct (find_resource _ _) as [flw|]; [|reflexivity].
  destruct (transport_description _ _ _ _); [discriminate|reflexivity].
Qed.

(** X4.  For the example RTP sender with its source and flow in place and
    SDP parameters that could be made, a connection sender whose data has no
    active endpoint, or whose active endpoint has no transport parameters,
    makes the setter raise the JSON exception of the accessor (line 297), and
    nothing is written. *)
Theorem transportfile_setter_without_active_params settings sender c st src flw sdp_params :
  id c = make_repeatable_id (seed_id settings) "/x-nmos/node/sender/0" ->
  find_resource (fst st)
    (make_repeatable_id (seed_id settings) "/x-nmos/node/source/0", types.source) = Some src ->
  find_resource (fst st)
    (make_repeatable_id (seed_id settings) "/x-nmos/node/flow/0", types.flow) = Some flw ->
  make_sdp_parameters (data src) (data flw) (data sender) ["PRIMARY"; "SECONDARY"]
    = Val sdp_params ->
  (match data c with
   | JObject fields =>
       match find_field endpoint_active fields with
       | Some (JObject active) => find_field transport_params active = None
       | _ => True
       end
   | _ => True
   end) ->
  make_node_implementation_transportfile_setter settings sender c st
    = (Exn json_exception, st).
Proof.
  intros Hid Hsrc Hflw Hsdp Hmissing.
  rewrite (transportfile_setter_found settings sender c st src flw) by done.
  unfold transport_description, active_transport_params. rewrite Hsdp. simpl.
  destruct (data c) as [| | | | |fields]; try reflexivity. simpl.
  destruct (find_field endpoint_active fields) as [active|]; [|reflexivity]. simpl.
  destruct active as [| | | | |active]; try reflexivity. simpl.
  by rewrite Hmissing.
Qed.

(** ** What the transport file setter reads *)

(** X16.  What the setter reads.  Two calls for the example RTP sender give
    the same outcome and, when they return, the same transport file, as soon
    as they agree on the sender's data, the active transport parameters of
    the connection sender, and the example source and flow found among the
    node resources.  Nothing else of the node resources or of the connection
    sender, and nothing of the transport file that was there before, has a
    part in it; the node resources are left as they were; and a second call
    on the state that the first one left gives the same again. *)
Theorem transportfile_setter_reads_only_inputs settings sender1 sender2 c1 c2 st1 st2 src flw :
  id c1 = make_repeatable_id (seed_id settings) "/x-nmos/node/sender/0" ->
  id c2 = make_repeatable_id (seed_id settings) "/x-nmos/node/sender/0" ->
  data sender1 = data sender2 ->
  active_transport_params (data c1) = active_transport_params (data c2) ->
  find_resource (fst st1)
    (make_repeatable_id (seed_id settings) "/x-nmos/node/source/0", types.source) = Some src ->
  find_resource (fst st2)
    (make_repeatable_id (seed_id settings) "/x-nmos/node/source/0", types.source) = Some src ->
  find_resource (fst st1)
    (make_repeatable_id (seed_id settings) "/x-nmos/node/flow/0", types.flow) = Some flw ->
  find_resource (fst st2)
    (make_repeatable_id (seed_id settings) "/x-nmos/node/flow/0", types.flow) = Some flw ->
  let run1 := make_node_implementation_transportfile_setter settings sender1 c1 st1 in
  let run2 := make_node_implementation_transportfile_setter settings sender2 c2 st2 in
  fst run1 = fst run2
  /\ (fst run1 = Val tt -> snd (snd run1) = snd (snd run2))
  /\ fst (snd run1) = fst st1
  /\ fst (snd run2) = fst st2
  /\ twice (make_node_implementation_transportfile_setter settings sender1 c1) st1 = run1.
Proof.
  intros Hid1 Hid2 Hsender Hparams Hs1 Hs2 Hf1 Hf2 run1 run2. subst run1 run2.
  unfold twice, bind.
  rewrite (transportfile_setter_found settings sender1 c1 st1 src flw) by done.
  rewrite (transportfile_setter_found settings sender2 c2 st2 src flw) by done.
  unfold transport_description. rewrite Hsender, Hparams.
  destruct (let+ sdp_params := make_sdp_parameters _ _ _ _ in _) as [file|e] eqn:E; simpl.
  - repeat (split; [reflexivity|]).
    rewrite (transportfile_setter_found settings sender1 c1 (fst st1, file) src flw) by done.
    unfold transport_description. rewrite Hsender, Hparams, E. reflexivity.
  - split; [reflexivity|]. split; [intros; discriminate|]. by repeat split.
Qed.

(** ** [insert_resource_after] *)

(** X5.  When shutdown is neither set nor requested during the wait,
    [insert_resource_after] returns true exactly when no resource of the
    namespace has the id; then the resource is in the namespace and is found
    by its id and type, and otherwise the namespace is as it was.  Either
    way the condition is signalled once and no other namespace changes. *)
Theorem insert_resource_after_running ms ns r w :
  shutdown (model w) = false ->
  head (requests w) <> Some true ->
  exists w',
    insert_resource_after ms ns r w
      = (Val (match get_resources ns (model w) !! id r with None => true | Some _ => false end),
         w')
    /\ notifications (model w') = S (notifications (model w))
    /\ shutdown (model w') = false
    /\ (forall ns', ns' <> ns -> get_resources ns' (model w') = get_resources ns' (model w))
    /\ match get_resources ns (model w) !! id r with
       | None =>
           get_resources ns (model w') = <[id r := r]> (get_resources ns (model w))
           /\ find_resource (get_resources ns (model w')) (id r, type r) = Some r
       | Some _ => get_resources ns (model w') = get_resources ns (model w)
       end.
Proof.
  intros Hflag Hreq.
  assert (shutdown (model w) || match requests w with [] => false | b :: _ => b end = false)
    as Hrunning.
  { rewrite Hflag. simpl. destruct (requests w) as [|[|] ?]; simpl in *; congruence. }
  assert (forall b m, get_resources ns (set_shutdown b m) = get_resources ns m) as Hget
    by (by destruct ns).
  unfold insert_resource_after, bind, wait_for_shutdown. simpl. rewrite Hrunning.
  unfold insert_resource. cbn [model]. rewrite !Hget.
  destruct (get_resources ns (model w) !! id r) as [old|] eqn:Hold; simpl.
  - eexists. split; [reflexivity|]. simpl.
    repeat split; try (by destruct ns); intros ns' _; by destruct ns, ns'.
  - eexists. split; [reflexivity|]. simpl.
    repeat split; try (by destruct ns); try (intros ns' Hne; by destruct ns, ns').
    unfold find_resource. simpl.
    assert (get_resources ns
              (notify (set_resources ns (<[id r := r]> (get_resources ns (model w)))
                         (set_shutdown false (model w)))) !! id r = Some r) as ->.
    { destruct ns; simpl; apply lookup_insert_eq. }
    by destruct (type r).
Qed.

(** What a call that returned true has done. *)
Lemma insert_resource_after_true ms ns r w w' :
  insert_resource_after ms ns r w = (Val true, w') ->
  get_resources ns (model w) !! id r = None
  /\ get_resources ns (model w') = <[id r := r]> (get_resources ns (model w))
  /\ (forall ns', ns' <> ns -> get_resources ns' (model w') = get_resources ns' (model w)).
Proof.
  assert (forall b m, get_resources ns (set_shutdown b m) = get_resources ns m) as Hget
    by (by destruct ns).
  unfold insert_resource_after, bind, wait_for_shutdown. simpl.
  destruct (shutdown (model w) || _); [discriminate|].
  unfold insert_resource. cbn [model]. rewrite !Hget.
  destruct (get_resources ns (model w) !! id r) as [old|] eqn:Hold; simpl; [discriminate|].
  intros [= <-]. simpl. repeat split; try (by destruct ns).
  intros ns' Hne. by destruct ns, ns'.
Qed.

(** A call for an id that the namespace has returns false and changes no
    namespace, with or without shutdown. *)
Lemma insert_resource_after_taken ms ns r w :
  is_Some (get_resources ns (model w) !! id r) ->
  exists w',
    insert_resource_after ms ns r w = (Val false, w')
    /\ (forall ns', get_resources ns' (model w') = get_resources ns' (model w)).
Proof.
  intros [old Hold].
  assert (forall b m, get_resources ns (set_shutdown b m) = get_resources ns m) as Hget
    by (by destruct ns).
  unfold insert_resource_after, bind, wait_for_shutdown. simpl.
  destruct (shutdown (model w) || _).
  - eexists. split; [reflexivity|]. by intros [].
  - unfold insert_resource. cbn [model]. rewrite !Hget, Hold.
    eexists. split; [reflexivity|]. simpl. intros ns'. by destruct ns, ns'.
Qed.

(** No call of [insert_resource_after] takes a resource out of a namespace
    or puts another in its place. *)
Lemma insert_resource_after_keeps ms ns r w ns0 i r0 :
  get_resources ns0 (model w) !! i = Some r0 ->
  get_resources ns0 (model (snd (insert_resource_after ms ns r w))) !! i = Some r0.
Proof.
  intros Hold.
  assert (forall b m, get_resources ns0 (set_shutdown b m) = get_resources ns0 m) as Hget0
    by (by destruct ns0).
  assert (forall b m, get_resources ns (set_shutdown b m) = get_resources ns m) as Hget
    by (by destruct ns).
  unfold insert_resource_after, bind, wait_for_shutdown. simpl.
  destruct (shutdown (model w) || _); simpl.
  - by rewrite Hget0.
  - unfold insert_resource. cbn [model]. rewrite !Hget.
    destruct (get_resources ns (model w) !! id r) as [old|] eqn:Hr; simpl.
    + destruct ns, ns0; simpl in *; done.
    + assert (ns0 = ns -> id r <> i) as Hi by (intros -> <-; congruence).
      destruct ns, ns0; simpl in *; try done;
        rewrite lookup_insert_ne; auto.
Qed.

Lemma insert_resources_after_keeps calls w ns0 i r0 :
  get_resources ns0 (model w) !! i = Some r0 ->
  get_resources ns0 (model (insert_resources_after calls w)) !! i = Some r0.
Proof.
  revert w. induction calls as [|[[ms ns] r] calls IH]; intros w Hold; [done|].
  simpl. apply IH. by apply insert_resource_after_keeps.
Qed.

(** X6.  Once a call of [insert_resource_after] has inserted a resource, it
    stays: however many calls of [insert_resource_after] come after it, with
    whatever resources, namespaces and shutdown requests, the namespace still
    holds that resource under its id, and a call for a resource with the same
    id and the same namespace returns false and changes no namespace. *)
Theorem insert_resource_after_duplicate ms ms' ns r r' w w1 calls :
  insert_resource_after ms ns r w = (Val true, w1) ->
  id r' = id r ->
  let w2 := insert_resources_after calls w1 in
  get_resources ns (model w2) !! id r = Some r
  /\ exists w3,
      insert_resource_after ms' ns r' w2 = (Val false, w3)
      /\ (forall ns', get_resources ns' (model w3) = get_resources ns' (model w2)).
Proof.
  intros Hfirst Hid w2.
  destruct (insert_resource_after_true ms ns r w w1 Hfirst) as (_ & Hns & _).
  assert (get_resources ns (model w2) !! id r = Some r) as Hstays.
  { apply insert_resources_after_keeps. by rewrite Hns, lookup_insert_eq. }
  split; [exact Hstays|].
  apply insert_resource_after_taken. rewrite Hid, Hstays. by eexists.
Qed.

(** ** What the thread does besides inserting *)

Lemma tally_nothing w expected : tally w w [] expected.
Proof.
  split; [by rewrite app_nil_r|]. split; [apply prefix_nil|].
  split; [simpl; lia|]. done.
Qed.

Lemma tally_ret w expected : tally_at (ret tt) w expected.
Proof. exists []. apply tally_nothing. Qed.

Lemma tally_settings {B} (k : value -> M world B) w expected :
  tally_at (k (settings (model w))) w expected -> tally_at (bind model_settings k) w expected.
Proof. intros Hk. apply Hk. Qed.

Lemma tally_local {A B} (o : outcome A) (k : A -> M world B) w expected :
  (forall a, tally_at (k a) w expected) -> tally_at (bind (local o) k) w expected.
Proof.
  intros Hk. unfold tally_at, bind, local. destruct o as [a|e].
  - apply Hk.
  - exists []. apply tally_nothing.
Qed.

Lemma tally_set_transportfile {B} settings r c (k : resource -> M world B) w expected :
  (forall a, tally_at (k a) w expected) ->
  tally_at
    (bind (call_set_transportfile (make_node_implementation_transportfile_setter settings) r c) k)
    w expected.
Proof.
  intros Hk. unfold tally_at, bind.
  pose proof (call_set_transportfile_keeps_world settings r c w) as Hw.
  destruct (call_set_transportfile _ _ _ _) as [[a|e] w1]; simpl in Hw; subst w1.
  - apply Hk.
  - exists []. apply tally_nothing.
Qed.

Lemma tally_or_return ms ns r k w expected :
  (forall w', tally_at k w' expected) ->
  tally_at (or_return (insert_resource_after ms ns r) k) w (ns :: expected).
Proof.
  intros Hk. unfold tally_at, or_return, bind at 1.
  unfold insert_resource_after, bind, wait_for_shutdown. simpl.
  destruct (shutdown (model w) || _) eqn:Hflag; simpl.
  - eexists [_]. repeat split; simpl; try done;
      first [ apply prefix_cons, prefix_nil | lia | by destruct (requests w) ].
  - unfold insert_resource.
    destruct (get_resources ns _ !! id r) as [old|] eqn:Hold; simpl.
    + eexists [_]. repeat split; simpl; try done;
        first [ apply prefix_cons, prefix_nil | destruct ns; simpl; lia
              | by destruct (requests w) | by destruct ns ].
    + match goal with |- context [k ?w1] => destruct (Hk w1) as (new & Hh & Hp & Hn & Hr & Hs) end.
      simpl in Hh, Hn, Hr, Hs.
      exists (make_attempt ns r inserted :: new). repeat split; simpl.
      * rewrite Hh, <- app_assoc. reflexivity.
      * by apply prefix_cons.
      * rewrite Hn. destruct ns; simpl; lia.
      * rewrite Hr. by destruct (requests w); simpl; rewrite ?drop_nil.
      * rewrite Hs. by destruct ns.
Qed.

(** The tally of every run of the thread. *)
Lemma node_implementation_thread_tally w :
  tally_at node_implementation_thread w (expected_targets (settings (model w))).
Proof.
  unfold node_implementation_thread.
  apply tally_settings. cbv zeta.
  generalize (settings (model w)). intros s.
  unfold expected_targets.
  destruct (0 <=? events_port s)%Z; simpl.
  all: repeat first
         [ apply tally_ret
         | apply tally_or_return; intros ?
         | apply tally_set_transportfile; intros ?
         | apply tally_local; intros ? ].
Qed.

(** X7.  The calls of [insert_resource_after] of a run go to the namespaces
    in the order of the source, from the first on and with none left out in
    between; a run makes at most 15 of them. *)
Theorem thread_call_order w :
  exists new,
    history (snd (node_implementation_thread w)) = (history w ++ new)%list
    /\ map target new `prefix_of` expected_targets (settings (model w))
    /\ length new <= 15.
Proof.
  destruct (node_implementation_thread_tally w) as (new & Hh & Hp & _).
  exists new. split; [done|]. split; [done|].
  apply prefix_length in Hp. rewrite length_map in Hp.
  unfold expected_targets in Hp. rewrite !List.length_app in Hp.
  destruct (0 <=? events_port _)%Z; simpl in Hp; lia.
Qed.

Lemma replay_other_targets ns new rs :
  Forall (fun a => target a <> ns) new -> replay ns new rs = rs.
Proof.
  intros Hall. revert rs. induction Hall as [|a new Ha _ IH]; intros rs; [done|].
  unfold replay in *. simpl. rewrite <- (IH rs) at 2. f_equal.
  destruct (target a), ns; simpl; congruence.
Qed.

(** X8.  With a negative events port the thread leaves the events namespace
    as it was: none of its calls, at most 10, goes there. *)
Theorem thread_without_events_port w :
  (events_port (settings (model w)) < 0)%Z ->
  events_resources (model (snd (node_implementation_thread w))) = events_resources (model w)
  /\ exists new,
      history (snd (node_implementation_thread w)) = (history w ++ new)%list
      /\ Forall (fun a => target a <> in_events_resources) new
      /\ length new <= 10.
Proof.
  intros Hport.
  destruct (node_implementation_thread_tally w) as (new & Hh & Hp & _).
  destruct (node_implementation_thread_fail_fast w) as (new' & Hh' & _ & Hns).
  rewrite Hh in Hh'. apply app_inv_head in Hh'. subst new'.
  unfold expected_targets in Hp.
  rewrite (proj2 (Z.leb_gt 0 (events_port (settings (model w))))) in Hp by lia.
  simpl in Hp.
  assert (Forall (fun a => target a <> in_events_resources) new) as Hall.
  { destruct Hp as [rest Hrest].
    assert (Forall (fun ns => ns <> in_events_resources) (map target new)) as Hmap.
    { assert (Forall (fun ns => ns <> in_events_resources) (map target new ++ rest))
        as Hboth by (rewrite <- Hrest; repeat constructor; discriminate).
      by apply Forall_app in Hboth as [? _]. }
    clear -Hmap. induction new as [|a new IH]; [constructor|].
    inversion Hmap; subst. constructor; [done|by apply IH]. }
  split.
  - specialize (Hns in_events_resources). simpl in Hns.
    by rewrite Hns, replay_other_targets.
  - exists new. split; [done|]. split; [done|].
    apply prefix_length in Hp. rewrite length_map in Hp. simpl in Hp. lia.
Qed.

(** X9.  In every run the thread waits once for each call of
    [insert_resource_after], signals the condition once for each call that
    got past its wait (a rejected insertion is signalled too, an observed
    shutdown is not), and leaves the settings as they were. *)
Theorem thread_signals_and_waits w :
  exists new,
    history (snd (node_implementation_thread w)) = (history w ++ new)%list
    /\ notifications (model (snd (node_implementation_thread w)))
       = notifications (model w) + length (filter signalled new)
    /\ requests (snd (node_implementation_thread w)) = drop (length new) (requests w)
    /\ settings (model (snd (node_implementation_thread w))) = settings (model w).
Proof.
  destruct (node_implementation_thread_tally w) as (new & Hh & _ & Hn & Hr & Hs).
  by exists new.
Qed.

(** ** The order of the insertions and the transport file setter *)

(** The resolver returns, or raises the JSON exception. *)
Lemma auto_resolver_outcome settings r c params :
  fst (make_node_implementation_auto_resolver settings r c params) = Val tt
  \/ fst (make_node_implementation_auto_resolver settings r c params) = Exn json_exception.
Proof.
  unfold make_node_implementation_auto_resolver. simpl.
  repeat match goal with
         | |- context [if String.eqb ?a ?b then _ else _] => destruct (String.eqb a b)
         end.
  all: destruct params as [| b | n | s | legs | fields];
    try (by right); try (by left).
  all: left;
    match goal with
    | |- fst (?c0 (JArray ?l)) = _ =>
        let H := fresh in
        eassert (c0 (JArray l) = _) as H
          by (eapply legwise_returns;
              repeat first
                [ apply is_legwise_rtp | apply is_legwise_at_index | eapply is_legwise_bind ]);
        rewrite H; reflexivity
    end.
Qed.

Lemma quiet_update_key key f v :
  (forall x, quiet (f x)) -> quiet (update_key key f v).
Proof.
  intros Hf what H. unfold update_key in H.
  destruct (fields_for_key key v) as [fields|e] eqn:E; simpl in H.
  - destruct (f (field_or_null key fields)) as [x|e] eqn:Ef; simpl in H; [discriminate|].
    injection H as ->. by eapply Hf.
  - destruct v; simpl in E; congruence.
Qed.

Lemma quiet_call_resolve_auto settings r c :
  quiet (call_resolve_auto (make_node_implementation_auto_resolver settings) r c).
Proof.
  intros what H. unfold call_resolve_auto in H.
  destruct (update_key endpoint_active _ (data c)) as [d|e] eqn:E; simpl in H; [discriminate|].
  injection H as ->. revert E.
  apply quiet_update_key. intros x. apply quiet_update_key. intros params.
  intros what'. unfold exec.
  destruct (auto_resolver_outcome settings r c params) as [H|H];
    destruct (make_node_implementation_auto_resolver settings r c params) as [[[]|e'] p];
    simpl in H; congruence.
Qed.

Lemma quiet_add_group_hint hint r :
  (forall v x, quiet (push_back v x)) -> quiet (add_group_hint hint r).
Proof.
  intros Hpb what H. unfold add_group_hint in H.
  destruct (update_key "tags" _ (data r)) as [d|e] eqn:E; simpl in H; [discriminate|].
  injection H as ->. revert E.
  apply quiet_update_key. intros x. apply quiet_update_key. intros v.
  apply Hpb.
Qed.

Lemma insert_resource_after_returns ms ns r w :
  exists b w', insert_resource_after ms ns r w = (Val b, w').
Proof.
  unfold insert_resource_after, bind, wait_for_shutdown. simpl.
  destruct (shutdown (model w) || _); [by eexists _, _|].
  destruct (insert_resource _ _). by eexists _, _.
Qed.

Lemma quiet_ret w : quiet_at (ret tt : M world unit) w.
Proof. intros what. discriminate. Qed.

Lemma quiet_settings {B} (k : value -> M world B) w :
  quiet_at (k (settings (model w))) w -> quiet_at (bind model_settings k) w.
Proof. intros Hk. apply Hk. Qed.

Lemma quiet_local {A B} (o : outcome A) (k : A -> M world B) w :
  quiet o -> (forall a, quiet_at (k a) w) -> quiet_at (bind (local o) k) w.
Proof.
  intros Ho Hk what. unfold bind, local. destruct o as [a|e].
  - apply Hk.
  - simpl. intros [= ->]. by eapply Ho.
Qed.

Lemma quiet_or_return ms ns r k w :
  (forall w', insert_resource_after ms ns r w = (Val true, w') -> quiet_at k w') ->
  quiet_at (or_return (insert_resource_after ms ns r) k) w.
Proof.
  intros Hk what. unfold or_return, bind.
  destruct (insert_resource_after_returns ms ns r w) as ([|] & w' & E); rewrite E; simpl.
  - by apply Hk.
  - discriminate.
Qed.

Lemma quiet_at_key key v : quiet (at_key key v).
Proof. intros what. unfold at_key. by repeat case_match. Qed.

Lemma quiet_transport_description source flow sender connection_sender :
  (forall a b c d, quiet (make_sdp_parameters a b c d)) ->
  (forall p v, quiet (make_session_description p v)) ->
  (forall v, quiet (sdp_make_session_description v)) ->
  quiet (transport_description source flow sender connection_sender).
Proof.
  intros Hsdp Hdesc Htext what. unfold transport_description, active_transport_params.
  destruct (make_sdp_parameters _ _ _ _) as [p|e] eqn:E1; simpl;
    [|intros [= ->]; by eapply Hsdp].
  destruct (at_key endpoint_active _) as [active|e] eqn:E2; simpl;
    [|intros [= ->]; by eapply quiet_at_key].
  destruct (at_key transport_params active) as [params|e] eqn:E3; simpl;
    [|intros [= ->]; by eapply quiet_at_key].
  destruct (make_session_description p params) as [sd|e] eqn:E4; simpl;
    [|intros [= ->]; by eapply Hdesc].
  destruct (sdp_make_session_description sd) as [text|e] eqn:E5; simpl;
    [discriminate|intros [= ->]; by eapply Htext].
Qed.

Lemma quiet_transportfile_setter settings r c st :
  (forall a b c d, quiet (make_sdp_parameters a b c d)) ->
  (forall p v, quiet (make_session_description p v)) ->
  (forall v, quiet (sdp_make_session_description v)) ->
  is_Some (find_resource (fst st)
             (make_repeatable_id (seed_id settings) "/x-nmos/node/source/0", types.source)) ->
  is_Some (find_resource (fst st)
             (make_repeatable_id (seed_id settings) "/x-nmos/node/flow/0", types.flow)) ->
  quiet_at (make_node_implementation_transportfile_setter settings r c) st.
Proof.
  intros Hsdp Hdesc Htext [src Hsrc] [flw Hflw] what.
  unfold make_node_implementation_transportfile_setter. simpl.
  destruct (String.eqb _ (id c)); [|discriminate].
  rewrite Hsrc, Hflw.
  pose proof (quiet_transport_description (data src) (data flw) (data r) (data c)
                Hsdp Hdesc Htext what) as Hq.
  destruct (transport_description _ _ _ _) as [file|e]; simpl; [discriminate|].
  congruence.
Qed.

Lemma quiet_set_transportfile {B} settings r c (k : resource -> M world B) w :
  (forall a b c d, quiet (make_sdp_parameters a b c d)) ->
  (forall p v, quiet (make_session_description p v)) ->
  (forall v, quiet (sdp_make_session_description v)) ->
  is_Some (find_resource (node_resources (model w))
             (make_repeatable_id (seed_id settings) "/x-nmos/node/source/0", types.source)) ->
  is_Some (find_resource (node_resources (model w))
             (make_repeatable_id (seed_id settings) "/x-nmos/node/flow/0", types.flow)) ->
  (forall a, quiet_at (k a) w) ->
  quiet_at
    (bind (call_set_transportfile (make_node_implementation_transportfile_setter settings) r c) k)
    w.
Proof.
  intros Hsdp Hdesc Htext Hsrc Hflw Hk what. unfold bind.
  pose proof (call_set_transportfile_keeps_world settings r c w) as Hw.
  destruct (call_set_transportfile _ _ _ _) as [[a|e] w1] eqn:E; simpl in Hw; subst w1.
  - apply Hk.
  - simpl. intros [= ->]. revert E. unfold call_set_transportfile.
    destruct (fields_for_key _ _) as [fields|e] eqn:Ef.
    2: { destruct (data c); simpl in Ef; congruence. }
    pose proof (quiet_transportfile_setter settings r (with_data c (JObject fields))
                  (node_resources (model w), field_or_null endpoint_transportfile fields)
                  Hsdp Hdesc Htext Hsrc Hflw what) as Hq.
    destruct (make_node_implementation_transportfile_setter _ _ _ _) as [[[]|e] [rs file]];
      simpl in Hq; [discriminate|congruence].
Qed.

Lemma quiet_obind {A B} (o : outcome A) (k : A -> outcome B) :
  quiet o -> (forall a, quiet (k a)) -> quiet (obind o k).
Proof.
  intros Ho Hk what. destruct o as [a|e]; simpl.
  - apply Hk.
  - intros [= ->]. by eapply Ho.
Qed.

Lemma quiet_val {A} (a : A) : quiet (Val a).
Proof. intros what. discriminate. Qed.

(** Two resources inserted one after the other into the node resources are
    both found afterwards. *)
Lemma inserted_pair_found ms ms' src flw w2 w3 w4 :
  insert_resource_after ms in_node_resources src w2 = (Val true, w3) ->
  insert_resource_after ms' in_node_resources flw w3 = (Val true, w4) ->
  find_resource (node_resources (model w4)) (id src, type src) = Some src
  /\ find_resource (node_resources (model w4)) (id flw, type flw) = Some flw.
Proof.
  intros E3 E4.
  destruct (insert_resource_after_true _ _ _ _ _ E3) as (_ & Hs3 & _).
  destruct (insert_resource_after_true _ _ _ _ _ E4) as (Hn4 & Hs4 & _).
  simpl in *. unfold find_resource. simpl. rewrite Hs4.
  assert (id flw <> id src) as Hne.
  { intros Heq. rewrite Hs3, Heq, lookup_insert_eq in Hn4. discriminate. }
  rewrite lookup_insert_ne by done. rewrite Hs3, !lookup_insert_eq.
  split; [by destruct (type src) | by destruct (type flw)].
Qed.

(** X10.  The thread calls the transport file setter only after the source
    and the flow have been inserted (the comment at line 102), so the
    setter's lookups succeed there: provided the library functions
    themselves raise no [std::logic_error] and [make_video_source] and
    [make_raw_video_flow] give resources with the id they are given and the
    types source and flow, no run of the thread ends with a logic error. *)
Theorem thread_finds_source_and_flow w :
  (forall i d g s,
      id (make_video_source i d g s) = i /\ type (make_video_source i d g s) = types.source) ->
  (forall i src d s,
      id (make_raw_video_flow i src d s) = i
      /\ type (make_raw_video_flow i src d s) = types.flow) ->
  (forall v x, quiet (push_back v x)) ->
  (forall a b c d, quiet (make_sdp_parameters a b c d)) ->
  (forall p v, quiet (make_session_description p v)) ->
  (forall v, quiet (sdp_make_session_description v)) ->
  quiet_at node_implementation_thread w.
Proof.
  intros Hsrc Hflw Hpb Hsdp Hdesc Htext.
  unfold node_implementation_thread. apply quiet_settings. cbv zeta.
  generalize (settings (model w)). intros s.
  repeat first
    [ apply quiet_ret
    | apply quiet_or_return; intros ? ?
    | apply quiet_local;
      [ first [ by apply quiet_add_group_hint
              | apply quiet_call_resolve_auto
              | apply quiet_obind;
                [ apply quiet_update_key; intros; apply quiet_val
                | intros; apply quiet_val ] ]
      | intros ? ]
    | apply quiet_set_transportfile; [done | done | done | | | intros ?]
    | match goal with
      | |- quiet_at (if ?b then _ else _) _ => destruct b
      end ].
  all: match goal with
       | E3 : insert_resource_after _ _ (make_video_source ?i ?d ?g ?s0) _ = (Val true, ?w3),
         E4 : insert_resource_after _ _ (make_raw_video_flow ?j ?i ?d ?s0) ?w3 = (Val true, _)
         |- _ =>
           destruct (inserted_pair_found _ _ _ _ _ _ _ E3 E4) as [Hfs Hff];
           destruct (Hsrc i d g s0) as [Hi Ht]; rewrite Hi, Ht in Hfs;
           destruct (Hflw j i d s0) as [Hj Hu]; rewrite Hj, Hu in Hff
       end.
  all: by eexists.
Qed.

(** ** More on the resolver *)

(** X11.  For a connection resource that the resolver knows, transport
    parameters that are neither null nor an array make it raise the JSON
    exception of [transport_params[0]], and they are left as they were. *)
Theorem auto_resolver_rejects_non_array settings r c params :
  recognized settings c = true ->
  is_null_or_array params = false ->
  make_node_implementation_auto_resolver settings r c params = (Exn json_exception, params).
Proof.
  unfold recognized, make_node_implementation_auto_resolver. simpl.
  repeat match goal with
         | |- context [if String.eqb ?a ?b then _ else _] => destruct (String.eqb a b)
         end.
  all: simpl; intros Hknown Hshape; try discriminate.
  all: destruct params; try discriminate; reflexivity.
Qed.

(** X12.  On an array the resolver returns an array that is at least as long
    as the number of legs its branch indexes (two for the RTP sender and
    receiver, one for the websocket sender and receiver): a shorter array is
    extended, and the legs added are null. *)
Theorem auto_resolver_leg_count settings r c legs :
  exists legs',
    make_node_implementation_auto_resolver settings r c (JArray legs) = (Val tt, JArray legs')
    /\ length legs' = Nat.max (length legs) (legs_indexed settings c)
    /\ (forall i, length legs <= i -> i < length legs' -> legs' !! i = Some JNull).
Proof.
  unfold legs_indexed, make_node_implementation_auto_resolver. simpl.
  repeat match goal with
         | |- context [if String.eqb ?a ?b then _ else _] => destruct (String.eqb a b)
         end.
  5: { exists legs. split; [reflexivity|]. split; [lia|]. intros; lia. }
  all: match goal with
       | |- exists _, ?c0 (JArray ?l) = _ /\ _ =>
           let H := fresh in
           eassert (is_legwise c0 _ _) as H
             by (repeat first
                   [ apply is_legwise_rtp | apply is_legwise_at_index
                   | eapply is_legwise_bind ]);
           destruct H as [HG Hc]
       end.
  all: eexists; split; [apply Hc|]; rewrite length_legwise; simpl Nat.max;
    (split; [reflexivity|]);
    intros i Hi Hlt; rewrite lookup_legwise, decide_True by done;
    rewrite (proj2 (lookup_ge_None legs i)) by done; simpl default;
    f_equal; apply HG.
Qed.

Lemma keeps_concrete_entries h :
  (forall kv, fst (h kv) = fst kv /\ (is_auto (snd kv) = false -> h kv = kv)) ->
  keeps_concrete (fun leg => match leg with
                             | JObject fields => JObject (map h fields)
                             | _ => leg
                             end).
Proof.
  intros Hh. split.
  - intros fields. exists (map h fields). split; [done|]. split; [apply length_map|].
    intros p k v Hp. exists (snd (h (k, v))).
    destruct (Hh (k, v)) as [Hk Hv]. simpl in *. split.
    + assert (map h fields !! p = Some (h (k, v))) as ->.
      { revert p Hp. induction fields as [|kv fields IH]; intros [|p] Hp; simplify_eq/=; auto. }
      destruct (h (k, v)). simpl in Hk. by subst.
    + intros Hauto. by rewrite Hv.
  - intros leg Hleg. destruct leg; try done. by destruct (Hleg fields).
Qed.

Lemma keeps_concrete_resolved_leg key auto_fun :
  keeps_concrete (resolved_leg key auto_fun).
Proof.
  apply (keeps_concrete_entries (resolve_entry key auto_fun)).
  intros [k v]. unfold resolve_entry. simpl. split.
  - by destruct (_ && _).
  - intros ->. by rewrite andb_false_r.
Qed.

Lemma keeps_concrete_rtp_leg t j : keeps_concrete (resolve_rtp_leg t j).
Proof.
  apply (keeps_concrete_entries (resolve_rtp_entry t j)).
  intros [k v]. unfold resolve_rtp_entry. simpl. split.
  - by repeat case_match.
  - by intros ->.
Qed.

Lemma keeps_concrete_same : keeps_concrete (fun leg => leg).
Proof.
  split; [|done]. intros fields. exists fields. split; [done|]. split; [done|].
  intros p k v Hp. by exists v.
Qed.

Lemma keeps_concrete_compose g1 g2 :
  keeps_concrete g1 -> keeps_concrete g2 -> keeps_concrete (fun leg => g2 (g1 leg)).
Proof.
  intros [H1 N1] [H2 N2]. split.
  - intros fields.
    destruct (H1 fields) as (fields1 & -> & Hlen1 & Hkeep1).
    destruct (H2 fields1) as (fields2 & -> & Hlen2 & Hkeep2).
    exists fields2. split; [done|]. split; [congruence|].
    intros p k v Hp.
    destruct (Hkeep1 p k v Hp) as (v1 & Hp1 & Hv1).
    destruct (Hkeep2 p k v1 Hp1) as (v2 & Hp2 & Hv2).
    exists v2. split; [done|]. intros Hauto.
    rewrite Hv2; rewrite Hv1; done.
  - intros leg Hleg. rewrite (N1 leg Hleg). by apply N2.
Qed.

Lemma is_careful_bind c1 c2 n1 n2 G1 G2 :
  is_careful c1 n1 G1 -> is_careful c2 n2 G2 ->
  is_careful (bind c1 (fun _ => c2)) (Nat.max n1 n2) (fun j leg => G2 j (G1 j leg)).
Proof.
  intros [L1 K1] [L2 K2]. split.
  - by apply is_legwise_bind.
  - intros j. by apply keeps_concrete_compose.
Qed.

Lemma is_careful_rtp t : is_careful (resolve_rtp_auto t) 0 (resolve_rtp_leg t).
Proof. split; [apply is_legwise_rtp | apply keeps_concrete_rtp_leg]. Qed.

Lemma is_careful_at_index i key auto_fun :
  is_careful (at_index i (details_resolve_auto key auto_fun)) (S i)
    (fun j leg => if decide (j = i) then resolved_leg key auto_fun leg else leg).
Proof.
  split; [apply is_legwise_at_index|]. intros j.
  case_decide; [apply keeps_concrete_resolved_leg | apply keeps_concrete_same].
Qed.

(** X13.  On an array the resolver keeps, in every leg that is an object, the
    names and the order of the parameters, and the value of every parameter
    that was not "auto": only parameters marked "auto" get another value. *)
Theorem auto_resolver_keeps_concrete settings r c legs :
  exists legs',
    make_node_implementation_auto_resolver settings r c (JArray legs) = (Val tt, JArray legs')
    /\ (forall i fields,
          legs !! i = Some (JObject fields) ->
          exists fields',
            legs' !! i = Some (JObject fields')
            /\ length fields' = length fields
            /\ (forall p k v,
                  fields !! p = Some (k, v) ->
                  exists v', fields' !! p = Some (k, v') /\ (is_auto v = false -> v' = v))).
Proof.
  unfold make_node_implementation_auto_resolver. simpl.
  repeat match goal with
         | |- context [if String.eqb ?a ?b then _ else _] => destruct (String.eqb a b)
         end.
  5: { exists legs. split; [reflexivity|]. intros i fields Hi. exists fields.
       split; [done|]. split; [done|]. intros p k v Hp. by exists v. }
  all: match goal with
       | |- exists _, ?c0 (JArray ?l) = _ /\ _ =>
           let H := fresh in
           eassert (is_careful c0 _ _) as H
             by (repeat first
                   [ apply is_careful_rtp | apply is_careful_at_index
                   | eapply is_careful_bind ]);
           destruct H as [[HG Hc] Hkeep]
       end.
  all: eexists; split; [apply Hc|]; intros i fields Hi;
    rewrite lookup_legwise, decide_True by (apply lookup_lt_Some in Hi; lia);
    rewrite Hi; simpl default;
    destruct (Hkeep i) as [Hobj _];
    destruct (Hobj fields) as (fields' & Heq & Hlen & Hentries);
    exists fields'; (split; [f_equal; exact Heq|]); by split.
Qed.

Lemma find_field_map h key v fields :
  (forall kv, fst (h kv) = fst kv) ->
  find_field key fields = Some v ->
  find_field key (map h fields) = Some (snd (h (key, v))).
Proof.
  intros Hh. induction fields as [|[k v0] fields IH]; [done|]. simpl.
  pose proof (Hh (k, v0)) as Hk. destruct (h (k, v0)) as [k' v'] eqn:E. simpl in Hk. subst k'.
  destruct (String.eqb k key) eqn:Ek.
  - apply String.eqb_eq in Ek. subst k. intros [= ->]. by rewrite E.
  - apply IH.
Qed.

Lemma resolve_entry_name key auto_fun kv : fst (resolve_entry key auto_fun kv) = fst kv.
Proof. unfold resolve_entry. by destruct (_ && _). Qed.

Lemma resolve_rtp_entry_name t j kv : fst (resolve_rtp_entry t j kv) = fst kv.
Proof. unfold resolve_rtp_entry. by repeat case_match. Qed.

(** What the sender branch makes of a parameter marked "auto" that
    [resolve_rtp_auto] leaves alone. *)
Lemma sender_leg_address t j key (x1 x2 : string) fields :
  rtp_auto_value t j key = None ->
  find_field key fields = Some (JString "auto") ->
  find_field key
    (map (resolve_entry destination_ip (fun _ => JString x2))
       (map (resolve_entry source_ip (fun _ => JString x1))
          (map (resolve_rtp_entry t j) fields)))
  = Some (snd (resolve_entry destination_ip (fun _ => JString x2)
                 (resolve_entry source_ip (fun _ => JString x1) (key, JString "auto")))).
Proof.
  intros Hnone Hfind.
  apply (find_field_map (resolve_rtp_entry t j)) in Hfind; [|apply resolve_rtp_entry_name].
  unfold resolve_rtp_entry in Hfind at 2. simpl in Hfind. rewrite Hnone in Hfind.
  apply (find_field_map (resolve_entry source_ip (fun _ => JString x1))) in Hfind;
    [|apply resolve_entry_name].
  apply (find_field_map (resolve_entry destination_ip (fun _ => JString x2))) in Hfind;
    [|apply resolve_entry_name].
  rewrite Hfind.
  pose proof (resolve_entry_name source_ip (fun _ => JString x1) (key, JString "auto")) as Hn.
  destruct (resolve_entry source_ip _ _) as [k' v']. simpl in Hn. by subst k'.
Qed.

(** X14.  For the RTP sender with two legs, where [resolve_rtp_auto] has no
    value of its own for the two addresses, a [source_ip] marked "auto"
    becomes 192.168.255.0 in leg 0 and 192.168.255.1 in leg 1, and a
    [destination_ip] marked "auto" becomes 239.255.255.0 in leg 0 and
    239.255.255.1 in leg 1. *)
Theorem sender_leg_addresses settings r c fields0 fields1 :
  id c = make_repeatable_id (seed_id settings) "/x-nmos/node/sender/0" ->
  source_ip <> destination_ip ->
  (forall leg, rtp_auto_value (type c) leg source_ip = None) ->
  (forall leg, rtp_auto_value (type c) leg destination_ip = None) ->
  exists resolved0 resolved1,
    make_node_implementation_auto_resolver settings r c
      (JArray [JObject fields0; JObject fields1])
    = (Val tt, JArray [JObject resolved0; JObject resolved1])
    /\ (find_field source_ip fields0 = Some (JString "auto") ->
        find_field source_ip resolved0 = Some (JString "192.168.255.0"))
    /\ (find_field source_ip fields1 = Some (JString "auto") ->
        find_field source_ip resolved1 = Some (JString "192.168.255.1"))
    /\ (find_field destination_ip fields0 = Some (JString "auto") ->
        find_field destination_ip resolved0 = Some (JString "239.255.255.0"))
    /\ (find_field destination_ip fields1 = Some (JString "auto") ->
        find_field destination_ip resolved1 = Some (JString "239.255.255.1")).
Proof.
  intros Hid Hkeys Hsource Hdestination.
  unfold make_node_implementation_auto_resolver. simpl.
  rewrite Hid, String.eqb_refl. simpl.
  eexists _, _. split; [reflexivity|].
  assert (String.eqb source_ip destination_ip = false) as Hsd
    by (by apply String.eqb_neq).
  assert (String.eqb destination_ip source_ip = false) as Hds
    by (apply String.eqb_neq; congruence).
  repeat split; intros Hfind;
    match type of Hfind with
    | find_field ?key ?fields = _ =>
        rewrite (sender_leg_address (type c) _ key _ _ fields) by done
    end;
    unfold resolve_entry; simpl;
    rewrite ?String.eqb_refl, ?Hsd, ?Hds; simpl;
    rewrite ?String.eqb_refl, ?Hsd, ?Hds; reflexivity.
Qed.

(** X15.  For the websocket temperature sender and receiver the resolver
    works on leg 0 only: every other leg of the array is returned as it
    was. *)
Theorem websocket_resolver_leaves_other_legs settings r c legs i leg :
  websocket_branch settings c = true ->
  i <> 0 ->
  legs !! i = Some leg ->
  exists legs',
    make_node_implementation_auto_resolver settings r c (JArray legs) = (Val tt, JArray legs')
    /\ legs' !! i = Some leg.
Proof.
  unfold websocket_branch, make_node_implementation_auto_resolver. simpl.
  repeat match goal with
         | |- context [if String.eqb ?a ?b then _ else _] => destruct (String.eqb a b)
         end.
  all: simpl; intros Hbranch Hi Hleg; try discriminate.
  all: match goal with
       | |- exists _, ?c0 (JArray ?l) = _ /\ _ =>
           let H := fresh in
           eassert (is_legwise c0 _ _) as H
             by (repeat first [ apply is_legwise_at_index | eapply is_legwise_bind ]);
           destruct H as [_ Hc]
       end.
  all: eexists; split; [apply Hc|];
    rewrite lookup_legwise, decide_True by (apply lookup_lt_Some in Hleg; lia);
    rewrite Hleg; simpl; by rewrite !decide_False by done.
Qed.

End further_properties.

(** * The further properties on concrete inputs *)

(** The example RTP sender with the flow missing: the logic error, and the
    state as it was. *)
Lemma transportfile_setter_exception_safe_example :
  snd (@make_node_implementation_transportfile_setter example_library example_settings
         example_sender example_connection_sender
         (<[id example_source := example_source]> ∅, JString "stale"))
  = (<[id example_source := example_source]> ∅, JString "stale").
Proof.
  apply (@transportfile_setter_exception_safe example_library example_settings
           example_sender example_connection_sender
           (<[id example_source := example_source]> ∅, JString "stale")
           (logic_error "matching IS-04 source or flow not found")).
  vm_compute. reflexivity.
Defined.

(** A connection sender whose data has no active endpoint. *)
Lemma transportfile_setter_without_active_params_example :
  @make_node_implementation_transportfile_setter example_library example_settings
    example_sender (example_resource example_sender_id types.sender [])
    (example_node_resources, JString "stale")
  = (Exn json_exception, (example_node_resources, JString "stale")).
Proof.
  apply (@transportfile_setter_without_active_params example_library example_settings
           example_sender (example_resource example_sender_id types.sender [])
           (example_node_resources, JString "stale") example_source example_flow
           (JArray [data example_source; data example_flow; data example_sender]));
    vm_compute; reflexivity.
Defined.

(** The example source into an empty model, with no shutdown. *)
Lemma insert_resource_after_running_example :
  exists w',
    insert_resource_after 10 in_node_resources example_source (example_world [])
      = (Val (match get_resources in_node_resources (model (example_world []))
                      !! id example_source with
              | None => true
              | Some _ => false
              end), w')
    /\ notifications (model w') = S (notifications (model (example_world [])))
    /\ shutdown (model w') = false
    /\ (forall ns', ns' <> in_node_resources ->
                    get_resources ns' (model w') = get_resources ns' (model (example_world [])))
    /\ match get_resources in_node_resources (model (example_world [])) !! id example_source with
       | None =>
           get_resources in_node_resources (model w')
           = <[id example_source := example_source]>
               (get_resources in_node_resources (model (example_world [])))
           /\ find_resource (get_resources in_node_resources (model w'))
                (id example_source, type example_source) = Some example_source
       | Some _ =>
           get_resources in_node_resources (model w')
           = get_resources in_node_resources (model (example_world []))
       end.
Proof.
  apply (insert_resource_after_running 10 in_node_resources example_source (example_world [])).
  - reflexivity.
  - discriminate.
Defined.

(** A second resource with the id of the example source, after the source,
    the example flow, another resource with the id of the source and the
    example sender have been given to [insert_resource_after]. *)
Lemma insert_resource_after_duplicate_example :
  let w2 :=
    insert_resources_after
      [(10, in_node_resources, example_flow);
       (10, in_node_resources, with_data example_source (JString "other"));
       (10, in_connection_resources, example_sender)]
      example_world_with_source in
  get_resources in_node_resources (model w2) !! id example_source = Some example_source
  /\ exists w3,
      insert_resource_after 10 in_node_resources (with_data example_source JNull) w2
        = (Val false, w3)
      /\ (forall ns', get_resources ns' (model w3) = get_resources ns' (model w2)).
Proof.
  apply (insert_resource_after_duplicate 10 10 in_node_resources example_source
           (with_data example_source JNull) (example_world []) example_world_with_source).
  - vm_compute. reflexivity.
  - reflexivity.
Defined.

(** Settings without an events port. *)
Lemma thread_without_events_port_example :
  events_resources
    (model (snd (@node_implementation_thread example_library example_world_without_events)))
  = events_resources (model example_world_without_events)
  /\ exists new,
      history (snd (@node_implementation_thread example_library example_world_without_events))
      = (history example_world_without_events ++ new)%list
      /\ Forall (fun a => target a <> in_events_resources) new
      /\ length new <= 10.
Proof.
  apply (@thread_without_events_port example_library example_world_without_events).
  vm_compute. reflexivity.
Defined.

(** The example library: its functions raise no logic error, and its
    sources and flows have the id and the type asked for. *)
Lemma thread_finds_source_and_flow_example :
  quiet_at (@node_implementation_thread example_library) (example_world []).
Proof.
  apply (@thread_finds_source_and_flow example_library (example_world [])).
  - intros i d g s. split; reflexivity.
  - intros i src d s. split; reflexivity.
  - intros v x what. destruct v; discriminate.
  - intros a b c d what. discriminate.
  - intros p v what. discriminate.
  - intros v what. discriminate.
Defined.

(** The websocket temperature receiver with an object where the legs
    should be. *)
Lemma auto_resolver_rejects_non_array_example :
  @make_node_implementation_auto_resolver example_library example_settings
    (example_resource example_ws_receiver_id types.receiver [])
    (example_resource example_ws_receiver_id types.receiver [])
    (JObject example_ws_receiver_leg)
  = (Exn json_exception, JObject example_ws_receiver_leg).
Proof.
  apply (@auto_resolver_rejects_non_array example_library example_settings
           (example_resource example_ws_receiver_id types.receiver [])
           (example_resource example_ws_receiver_id types.receiver [])
           (JObject example_ws_receiver_leg)); reflexivity.
Defined.

(** The two legs of the example RTP sender. *)
Lemma sender_leg_addresses_example :
  exists resolved0 resolved1,
    @make_node_implementation_auto_resolver example_library example_settings
      example_sender example_connection_sender
      (JArray [JObject example_sender_leg; JObject example_sender_leg])
    = (Val tt, JArray [JObject resolved0; JObject resolved1])
    /\ (find_field "source_ip" example_sender_leg = Some (JString "auto") ->
        find_field "source_ip" resolved0 = Some (JString "192.168.255.0"))
    /\ (find_field "source_ip" example_sender_leg = Some (JString "auto") ->
        find_field "source_ip" resolved1 = Some (JString "192.168.255.1"))
    /\ (find_field "destination_ip" example_sender_leg = Some (JString "auto") ->
        find_field "destination_ip" resolved0 = Some (JString "239.255.255.0"))
    /\ (find_field "destination_ip" example_sender_leg = Some (JString "auto") ->
        find_field "destination_ip" resolved1 = Some (JString "239.255.255.1")).
Proof.
  apply (@sender_leg_addresses example_library example_settings example_sender
           example_connection_sender example_sender_leg example_sender_leg).
  - reflexivity.
  - discriminate.
  - intros leg. reflexivity.
  - intros leg. reflexivity.
Defined.

(** A second leg behind the leg of the websocket temperature receiver. *)
Lemma websocket_resolver_leaves_other_legs_example :
  exists legs',
    @make_node_implementation_auto_resolver example_library example_settings
      (example_resource example_ws_receiver_id types.receiver [])
      (example_resource example_ws_receiver_id types.receiver [])
      (JArray [JObject example_ws_receiver_leg; JObject example_ws_receiver_leg])
    = (Val tt, JArray legs')
    /\ legs' !! 1 = Some (JObject example_ws_receiver_leg).
Proof.
  apply (@websocket_resolver_leaves_other_legs example_library example_settings
           (example_resource example_ws_receiver_id types.receiver [])
           (example_resource example_ws_receiver_id types.receiver [])
           [JObject example_ws_receiver_leg; JObject example_ws_receiver_leg] 1
           (JObject example_ws_receiver_leg)).
  - reflexivity.
  - discriminate.
  - reflexivity.
Defined.

(** Two calls that differ in the transport file that was there, in the other
    node resources and in the other data of the connection sender. *)
Lemma transportfile_setter_reads_only_inputs_example :
  let run1 :=
    @make_node_implementation_transportfile_setter example_library example_settings
      example_sender example_connection_sender (example_node_resources, JNull) in
  let run2 :=
    @make_node_implementation_transportfile_setter example_library example_settings
      example_sender example_connection_sender_variant
      (<[id example_sender := example_sender]> example_node_resources, JString "stale") in
  fst run1 = fst run2
  /\ (fst run1 = Val tt -> snd (snd run1) = snd (snd run2))
  /\ fst (snd run1) = fst (example_node_resources, JNull)
  /\ fst (snd run2)
     = fst (<[id example_sender := example_sender]> example_node_resources, JString "stale")
  /\ twice (@make_node_implementation_transportfile_setter example_library example_settings
              example_sender example_connection_sender) (example_node_resources, JNull)
     = run1.
Proof.
  apply (@transportfile_setter_reads_only_inputs example_library example_settings
           example_sender example_sender
           example_connection_sender example_connection_sender_variant
           (example_node_resources, JNull)
           (<[id example_sender := example_sender]> example_node_resources, JString "stale")
           example_source example_flow);
    vm_compute; reflexivity.
Defined.
